(** * Smart Facts Dashboard: resolver and view engine

    A shallow embedding of [build_dashboard.py]: the Python resolver
    ([extract_smart_facts_from_codebase], [extract_from_files],
    [get_hardcoded_insights]) and the script-side view engine that the
    generated page embeds ([smartFactsDashboard] with its getters
    [filteredInsights] and [stats] and its method [exportToCSV]), the
    controls of the page as events on its state, and the generator
    ([generate_dashboard_html] and [main]) with the [str.format] call it
    makes on the template.

    Conventions.
    - A script string is kept as the bytes of its UTF-8 form, one [ascii]
      each; this covers every string without lone surrogates. On such
      strings the search for a substring, the comparison and the
      replacement of a comma, quote or line break are the same on code
      units and on bytes. The strings of an insight are script strings.
    - A Python string of the resolver and of the generator (a path, the
      template and its arguments) is kept for the code points
      U+0000..U+00FF, one [ascii] each.
    - The priority of an insight is the integer of the JSON text; the
      script holds the double nearest to it and prints that double.
    - Python and script exceptions are explicit results ([Raise], [Throw]);
      a call that can raise in the source can raise in the model. *)

From Stdlib Require Import String Ascii ZArith NArith List Bool Lia DecimalString.
From stdpp Require Import list.
Import ListNotations.

Open Scope string_scope.
Open Scope list_scope.

(* ===================================================================== *)
(** ** Script string primitives *)
(* ===================================================================== *)

Module JS.

(** Code units used by the export code; each is one byte in UTF-8. *)
Definition LF : ascii := ascii_of_nat 10.
Definition CR : ascii := ascii_of_nat 13.
Definition COMMA : ascii := ","%char.
Definition DQUOTE : ascii := ascii_of_nat 34.
Definition SPACE : ascii := " "%char.

(** A string is falsy exactly when it is empty. *)
Definition truthy (s : string) : bool :=
  match s with
  | EmptyString => false
  | String _ _ => true
  end.

(** *** Lower case

    [String.prototype.toLowerCase] is the default case conversion of
    Unicode on the code points of the string: every code point is replaced
    by its lower-case mapping, and the capital sigma U+03A3 by the final
    small sigma U+03C2 where it ends a word (the condition Final_Sigma).
    The three tables below are those of the Unicode Character Database
    14.0.0. *)

(** Runs of the simple lower-case mapping above U+007F: from the first to
    the last code point of a run, every [step]-th code point maps to the
    target of the first plus its distance from the first. *)
Definition lower_runs : list (N * N * N * N) :=
  [
    (192, 214, 1, 224); (216, 222, 1, 248); (256, 302, 2, 257); (306, 310, 2, 307);
    (313, 327, 2, 314); (330, 374, 2, 331); (376, 376, 1, 255); (377, 381, 2, 378);
    (385, 385, 1, 595); (386, 388, 2, 387); (390, 390, 1, 596); (391, 391, 1, 392);
    (393, 394, 1, 598); (395, 395, 1, 396); (398, 398, 1, 477); (399, 399, 1, 601);
    (400, 400, 1, 603); (401, 401, 1, 402); (403, 403, 1, 608); (404, 404, 1, 611);
    (406, 406, 1, 617); (407, 407, 1, 616); (408, 408, 1, 409); (412, 412, 1, 623);
    (413, 413, 1, 626); (415, 415, 1, 629); (416, 420, 2, 417); (422, 422, 1, 640);
    (423, 423, 1, 424); (425, 425, 1, 643); (428, 428, 1, 429); (430, 430, 1, 648);
    (431, 431, 1, 432); (433, 434, 1, 650); (435, 437, 2, 436); (439, 439, 1, 658);
    (440, 440, 1, 441); (444, 444, 1, 445); (452, 452, 1, 454); (453, 453, 1, 454);
    (455, 455, 1, 457); (456, 456, 1, 457); (458, 458, 1, 460); (459, 475, 2, 460);
    (478, 494, 2, 479); (497, 497, 1, 499); (498, 500, 2, 499); (502, 502, 1, 405);
    (503, 503, 1, 447); (504, 542, 2, 505); (544, 544, 1, 414); (546, 562, 2, 547);
    (570, 570, 1, 11365); (571, 571, 1, 572); (573, 573, 1, 410); (574, 574, 1, 11366);
    (577, 577, 1, 578); (579, 579, 1, 384); (580, 580, 1, 649); (581, 581, 1, 652);
    (582, 590, 2, 583); (880, 882, 2, 881); (886, 886, 1, 887); (895, 895, 1, 1011);
    (902, 902, 1, 940); (904, 906, 1, 941); (908, 908, 1, 972); (910, 911, 1, 973);
    (913, 929, 1, 945); (931, 939, 1, 963); (975, 975, 1, 983); (984, 1006, 2, 985);
    (1012, 1012, 1, 952); (1015, 1015, 1, 1016); (1017, 1017, 1, 1010); (1018, 1018, 1, 1019);
    (1021, 1023, 1, 891); (1024, 1039, 1, 1104); (1040, 1071, 1, 1072); (1120, 1152, 2, 1121);
    (1162, 1214, 2, 1163); (1216, 1216, 1, 1231); (1217, 1229, 2, 1218); (1232, 1326, 2, 1233);
    (1329, 1366, 1, 1377); (4256, 4293, 1, 11520); (4295, 4295, 1, 11559); (4301, 4301, 1, 11565);
    (5024, 5103, 1, 43888); (5104, 5109, 1, 5112); (7312, 7354, 1, 4304); (7357, 7359, 1, 4349);
    (7680, 7828, 2, 7681); (7838, 7838, 1, 223); (7840, 7934, 2, 7841); (7944, 7951, 1, 7936);
    (7960, 7965, 1, 7952); (7976, 7983, 1, 7968); (7992, 7999, 1, 7984); (8008, 8013, 1, 8000);
    (8025, 8031, 2, 8017); (8040, 8047, 1, 8032); (8072, 8079, 1, 8064); (8088, 8095, 1, 8080);
    (8104, 8111, 1, 8096); (8120, 8121, 1, 8112); (8122, 8123, 1, 8048); (8124, 8124, 1, 8115);
    (8136, 8139, 1, 8050); (8140, 8140, 1, 8131); (8152, 8153, 1, 8144); (8154, 8155, 1, 8054);
    (8168, 8169, 1, 8160); (8170, 8171, 1, 8058); (8172, 8172, 1, 8165); (8184, 8185, 1, 8056);
    (8186, 8187, 1, 8060); (8188, 8188, 1, 8179); (8486, 8486, 1, 969); (8490, 8490, 1, 107);
    (8491, 8491, 1, 229); (8498, 8498, 1, 8526); (8544, 8559, 1, 8560); (8579, 8579, 1, 8580);
    (9398, 9423, 1, 9424); (11264, 11311, 1, 11312); (11360, 11360, 1, 11361); (11362, 11362, 1, 619);
    (11363, 11363, 1, 7549); (11364, 11364, 1, 637); (11367, 11371, 2, 11368); (11373, 11373, 1, 593);
    (11374, 11374, 1, 625); (11375, 11375, 1, 592); (11376, 11376, 1, 594); (11378, 11378, 1, 11379);
    (11381, 11381, 1, 11382); (11390, 11391, 1, 575); (11392, 11490, 2, 11393); (11499, 11501, 2, 11500);
    (11506, 11506, 1, 11507); (42560, 42604, 2, 42561); (42624, 42650, 2, 42625); (42786, 42798, 2, 42787);
    (42802, 42862, 2, 42803); (42873, 42875, 2, 42874); (42877, 42877, 1, 7545); (42878, 42886, 2, 42879);
    (42891, 42891, 1, 42892); (42893, 42893, 1, 613); (42896, 42898, 2, 42897); (42902, 42920, 2, 42903);
    (42922, 42922, 1, 614); (42923, 42923, 1, 604); (42924, 42924, 1, 609); (42925, 42925, 1, 620);
    (42926, 42926, 1, 618); (42928, 42928, 1, 670); (42929, 42929, 1, 647); (42930, 42930, 1, 669);
    (42931, 42931, 1, 43859); (42932, 42946, 2, 42933); (42948, 42948, 1, 42900); (42949, 42949, 1, 642);
    (42950, 42950, 1, 7566); (42951, 42953, 2, 42952); (42960, 42960, 1, 42961); (42966, 42968, 2, 42967);
    (42997, 42997, 1, 42998); (65313, 65338, 1, 65345); (66560, 66599, 1, 66600); (66736, 66771, 1, 66776);
    (66928, 66938, 1, 66967); (66940, 66954, 1, 66979); (66956, 66962, 1, 66995); (66964, 66965, 1, 67003);
    (68736, 68786, 1, 68800); (71840, 71871, 1, 71872); (93760, 93791, 1, 93792); (125184, 125217, 1, 125218) ]%N.

(** The code points with the property Cased. *)
Definition cased_ranges : list (N * N) :=
  [
    (65, 90); (97, 122); (170, 170); (181, 181); (186, 186); (192, 214);
    (216, 246); (248, 442); (444, 447); (452, 659); (661, 696); (704, 705);
    (736, 740); (837, 837); (880, 883); (886, 887); (890, 893); (895, 895);
    (902, 902); (904, 906); (908, 908); (910, 929); (931, 1013); (1015, 1153);
    (1162, 1327); (1329, 1366); (1376, 1416); (4256, 4293); (4295, 4295); (4301, 4301);
    (4304, 4346); (4349, 4351); (5024, 5109); (5112, 5117); (7296, 7304); (7312, 7354);
    (7357, 7359); (7424, 7615); (7680, 7957); (7960, 7965); (7968, 8005); (8008, 8013);
    (8016, 8023); (8025, 8025); (8027, 8027); (8029, 8029); (8031, 8061); (8064, 8116);
    (8118, 8124); (8126, 8126); (8130, 8132); (8134, 8140); (8144, 8147); (8150, 8155);
    (8160, 8172); (8178, 8180); (8182, 8188); (8305, 8305); (8319, 8319); (8336, 8348);
    (8450, 8450); (8455, 8455); (8458, 8467); (8469, 8469); (8473, 8477); (8484, 8484);
    (8486, 8486); (8488, 8488); (8490, 8493); (8495, 8500); (8505, 8505); (8508, 8511);
    (8517, 8521); (8526, 8526); (8544, 8575); (8579, 8580); (9398, 9449); (11264, 11492);
    (11499, 11502); (11506, 11507); (11520, 11557); (11559, 11559); (11565, 11565); (42560, 42605);
    (42624, 42653); (42786, 42887); (42891, 42894); (42896, 42954); (42960, 42961); (42963, 42963);
    (42965, 42969); (42997, 42998); (43000, 43002); (43824, 43866); (43868, 43880); (43888, 43967);
    (64256, 64262); (64275, 64279); (65313, 65338); (65345, 65370); (66560, 66639); (66736, 66771);
    (66776, 66811); (66928, 66938); (66940, 66954); (66956, 66962); (66964, 66965); (66967, 66977);
    (66979, 66993); (66995, 67001); (67003, 67004); (67456, 67456); (67459, 67461); (67463, 67504);
    (67506, 67514); (68736, 68786); (68800, 68850); (71840, 71903); (93760, 93823); (119808, 119892);
    (119894, 119964); (119966, 119967); (119970, 119970); (119973, 119974); (119977, 119980); (119982, 119993);
    (119995, 119995); (119997, 120003); (120005, 120069); (120071, 120074); (120077, 120084); (120086, 120092);
    (120094, 120121); (120123, 120126); (120128, 120132); (120134, 120134); (120138, 120144); (120146, 120485);
    (120488, 120512); (120514, 120538); (120540, 120570); (120572, 120596); (120598, 120628); (120630, 120654);
    (120656, 120686); (120688, 120712); (120714, 120744); (120746, 120770); (120772, 120779); (122624, 122633);
    (122635, 122654); (125184, 125251); (127280, 127305); (127312, 127337); (127344, 127369) ]%N.

(** The code points with the property Case_Ignorable. *)
Definition case_ignorable_ranges : list (N * N) :=
  [
    (39, 39); (46, 46); (58, 58); (94, 94); (96, 96); (168, 168);
    (173, 173); (175, 175); (180, 180); (183, 184); (688, 879); (884, 885);
    (890, 890); (900, 901); (903, 903); (1155, 1161); (1369, 1369); (1375, 1375);
    (1425, 1469); (1471, 1471); (1473, 1474); (1476, 1477); (1479, 1479); (1524, 1524);
    (1536, 1541); (1552, 1562); (1564, 1564); (1600, 1600); (1611, 1631); (1648, 1648);
    (1750, 1757); (1759, 1768); (1770, 1773); (1807, 1807); (1809, 1809); (1840, 1866);
    (1958, 1968); (2027, 2037); (2042, 2042); (2045, 2045); (2070, 2093); (2137, 2139);
    (2184, 2184); (2192, 2193); (2200, 2207); (2249, 2306); (2362, 2362); (2364, 2364);
    (2369, 2376); (2381, 2381); (2385, 2391); (2402, 2403); (2417, 2417); (2433, 2433);
    (2492, 2492); (2497, 2500); (2509, 2509); (2530, 2531); (2558, 2558); (2561, 2562);
    (2620, 2620); (2625, 2626); (2631, 2632); (2635, 2637); (2641, 2641); (2672, 2673);
    (2677, 2677); (2689, 2690); (2748, 2748); (2753, 2757); (2759, 2760); (2765, 2765);
    (2786, 2787); (2810, 2815); (2817, 2817); (2876, 2876); (2879, 2879); (2881, 2884);
    (2893, 2893); (2901, 2902); (2914, 2915); (2946, 2946); (3008, 3008); (3021, 3021);
    (3072, 3072); (3076, 3076); (3132, 3132); (3134, 3136); (3142, 3144); (3146, 3149);
    (3157, 3158); (3170, 3171); (3201, 3201); (3260, 3260); (3263, 3263); (3270, 3270);
    (3276, 3277); (3298, 3299); (3328, 3329); (3387, 3388); (3393, 3396); (3405, 3405);
    (3426, 3427); (3457, 3457); (3530, 3530); (3538, 3540); (3542, 3542); (3633, 3633);
    (3636, 3642); (3654, 3662); (3761, 3761); (3764, 3772); (3782, 3782); (3784, 3789);
    (3864, 3865); (3893, 3893); (3895, 3895); (3897, 3897); (3953, 3966); (3968, 3972);
    (3974, 3975); (3981, 3991); (3993, 4028); (4038, 4038); (4141, 4144); (4146, 4151);
    (4153, 4154); (4157, 4158); (4184, 4185); (4190, 4192); (4209, 4212); (4226, 4226);
    (4229, 4230); (4237, 4237); (4253, 4253); (4348, 4348); (4957, 4959); (5906, 5908);
    (5938, 5939); (5970, 5971); (6002, 6003); (6068, 6069); (6071, 6077); (6086, 6086);
    (6089, 6099); (6103, 6103); (6109, 6109); (6155, 6159); (6211, 6211); (6277, 6278);
    (6313, 6313); (6432, 6434); (6439, 6440); (6450, 6450); (6457, 6459); (6679, 6680);
    (6683, 6683); (6742, 6742); (6744, 6750); (6752, 6752); (6754, 6754); (6757, 6764);
    (6771, 6780); (6783, 6783); (6823, 6823); (6832, 6862); (6912, 6915); (6964, 6964);
    (6966, 6970); (6972, 6972); (6978, 6978); (7019, 7027); (7040, 7041); (7074, 7077);
    (7080, 7081); (7083, 7085); (7142, 7142); (7144, 7145); (7149, 7149); (7151, 7153);
    (7212, 7219); (7222, 7223); (7288, 7293); (7376, 7378); (7380, 7392); (7394, 7400);
    (7405, 7405); (7412, 7412); (7416, 7417); (7468, 7530); (7544, 7544); (7579, 7679);
    (8125, 8125); (8127, 8129); (8141, 8143); (8157, 8159); (8173, 8175); (8189, 8190);
    (8203, 8207); (8216, 8217); (8228, 8228); (8231, 8231); (8234, 8238); (8288, 8292);
    (8294, 8303); (8305, 8305); (8319, 8319); (8336, 8348); (8400, 8432); (11388, 11389);
    (11503, 11505); (11631, 11631); (11647, 11647); (11744, 11775); (11823, 11823); (12293, 12293);
    (12330, 12333); (12337, 12341); (12347, 12347); (12441, 12446); (12540, 12542); (40981, 40981);
    (42232, 42237); (42508, 42508); (42607, 42610); (42612, 42621); (42623, 42623); (42652, 42655);
    (42736, 42737); (42752, 42785); (42864, 42864); (42888, 42890); (42994, 42996); (43000, 43001);
    (43010, 43010); (43014, 43014); (43019, 43019); (43045, 43046); (43052, 43052); (43204, 43205);
    (43232, 43249); (43263, 43263); (43302, 43309); (43335, 43345); (43392, 43394); (43443, 43443);
    (43446, 43449); (43452, 43453); (43471, 43471); (43493, 43494); (43561, 43566); (43569, 43570);
    (43573, 43574); (43587, 43587); (43596, 43596); (43632, 43632); (43644, 43644); (43696, 43696);
    (43698, 43700); (43703, 43704); (43710, 43711); (43713, 43713); (43741, 43741); (43756, 43757);
    (43763, 43764); (43766, 43766); (43867, 43871); (43881, 43883); (44005, 44005); (44008, 44008);
    (44013, 44013); (64286, 64286); (64434, 64450); (65024, 65039); (65043, 65043); (65056, 65071);
    (65106, 65106); (65109, 65109); (65279, 65279); (65287, 65287); (65294, 65294); (65306, 65306);
    (65342, 65342); (65344, 65344); (65392, 65392); (65438, 65439); (65507, 65507); (65529, 65531);
    (66045, 66045); (66272, 66272); (66422, 66426); (67456, 67461); (67463, 67504); (67506, 67514);
    (68097, 68099); (68101, 68102); (68108, 68111); (68152, 68154); (68159, 68159); (68325, 68326);
    (68900, 68903); (69291, 69292); (69446, 69456); (69506, 69509); (69633, 69633); (69688, 69702);
    (69744, 69744); (69747, 69748); (69759, 69761); (69811, 69814); (69817, 69818); (69821, 69821);
    (69826, 69826); (69837, 69837); (69888, 69890); (69927, 69931); (69933, 69940); (70003, 70003);
    (70016, 70017); (70070, 70078); (70089, 70092); (70095, 70095); (70191, 70193); (70196, 70196);
    (70198, 70199); (70206, 70206); (70367, 70367); (70371, 70378); (70400, 70401); (70459, 70460);
    (70464, 70464); (70502, 70508); (70512, 70516); (70712, 70719); (70722, 70724); (70726, 70726);
    (70750, 70750); (70835, 70840); (70842, 70842); (70847, 70848); (70850, 70851); (71090, 71093);
    (71100, 71101); (71103, 71104); (71132, 71133); (71219, 71226); (71229, 71229); (71231, 71232);
    (71339, 71339); (71341, 71341); (71344, 71349); (71351, 71351); (71453, 71455); (71458, 71461);
    (71463, 71467); (71727, 71735); (71737, 71738); (71995, 71996); (71998, 71998); (72003, 72003);
    (72148, 72151); (72154, 72155); (72160, 72160); (72193, 72202); (72243, 72248); (72251, 72254);
    (72263, 72263); (72273, 72278); (72281, 72283); (72330, 72342); (72344, 72345); (72752, 72758);
    (72760, 72765); (72767, 72767); (72850, 72871); (72874, 72880); (72882, 72883); (72885, 72886);
    (73009, 73014); (73018, 73018); (73020, 73021); (73023, 73029); (73031, 73031); (73104, 73105);
    (73109, 73109); (73111, 73111); (73459, 73460); (78896, 78904); (92912, 92916); (92976, 92982);
    (92992, 92995); (94031, 94031); (94095, 94111); (94176, 94177); (94179, 94180); (110576, 110579);
    (110581, 110587); (110589, 110590); (113821, 113822); (113824, 113827); (118528, 118573); (118576, 118598);
    (119143, 119145); (119155, 119170); (119173, 119179); (119210, 119213); (119362, 119364); (121344, 121398);
    (121403, 121452); (121461, 121461); (121476, 121476); (121499, 121503); (121505, 121519); (122880, 122886);
    (122888, 122904); (122907, 122913); (122915, 122916); (122918, 122922); (123184, 123197); (123566, 123566);
    (123628, 123631); (125136, 125142); (125252, 125259); (127995, 127999); (917505, 917505); (917536, 917631);
    (917760, 917999) ]%N.

Fixpoint in_ranges (c : N) (ranges : list (N * N)) : bool :=
  match ranges with
  | [] => false
  | (lo, hi) :: rest =>
      if (c <? lo)%N then false
      else if (c <=? hi)%N then true
      else in_ranges c rest
  end.

Fixpoint find_run (c : N) (runs : list (N * N * N * N)) : N :=
  match runs with
  | [] => c
  | (lo, hi, step, target) :: rest =>
      if (c <? lo)%N then c
      else if ((c <=? hi) && ((c - lo) mod step =? 0))%N then (target + (c - lo))%N
      else find_run c rest
  end.

Definition cased (c : N) : bool := in_ranges c cased_ranges.
Definition case_ignorable (c : N) : bool := in_ranges c case_ignorable_ranges.

(** The simple mapping: A..Z by rule, the other code points by table. *)
Definition lower_simple (c : N) : N :=
  if (c <? 128)%N then (if ((65 <=? c) && (c <=? 90))%N then c + 32 else c)%N
  else find_run c lower_runs.

(** The full mapping: U+0130 alone maps to two code points. *)
Definition lower_full (c : N) : list N :=
  if (c =? 304)%N then [105; 775]%N else [lower_simple c].

Definition SIGMA : N := 931.
Definition FINAL_SIGMA : N := 962.

(** After the sigma: case-ignorable code points, then a cased one. *)
Fixpoint followed_by_cased (rest : list N) : bool :=
  match rest with
  | [] => false
  | c :: rest' => if case_ignorable c then followed_by_cased rest' else cased c
  end.

(** [before] holds when the code points read so far end with a cased one
    and then case-ignorable ones. *)
Fixpoint lower_from (before : bool) (l : list N) : list N :=
  match l with
  | [] => []
  | c :: rest =>
      (if (c =? SIGMA)%N && before && negb (followed_by_cased rest)
       then [FINAL_SIGMA]
       else lower_full c)
      ++ lower_from (if case_ignorable c then before else cased c) rest
  end.

(** *** Strings as UTF-8

    A script string without lone surrogates is kept as the bytes of its
    UTF-8 form. [decode_utf8] reads the code points; a byte that begins no
    well-formed sequence is kept as [RAW] plus the byte. *)

Definition RAW : N := 1114112.

Definition continuation (n : N) : bool := ((128 <=? n) && (n <=? 191))%N.

Fixpoint decode_utf8 (s : string) : list N :=
  match s with
  | EmptyString => []
  | String b1 s1 =>
      let n1 := N_of_ascii b1 in
      if (n1 <? 128)%N then n1 :: decode_utf8 s1
      else
        match s1 with
        | String b2 s2 =>
            let n2 := N_of_ascii b2 in
            if ((194 <=? n1) && (n1 <=? 223))%N && continuation n2
            then ((n1 - 192) * 64 + (n2 - 128))%N :: decode_utf8 s2
            else
              match s2 with
              | String b3 s3 =>
                  let n3 := N_of_ascii b3 in
                  if ((224 <=? n1) && (n1 <=? 239))%N
                     && continuation n2 && continuation n3
                     && negb ((n1 =? 224) && (n2 <? 160))%N
                     && negb ((n1 =? 237) && (159 <? n2))%N
                  then ((n1 - 224) * 4096 + (n2 - 128) * 64 + (n3 - 128))%N
                       :: decode_utf8 s3
                  else
                    match s3 with
                    | String b4 s4 =>
                        let n4 := N_of_ascii b4 in
                        if ((240 <=? n1) && (n1 <=? 244))%N
                           && continuation n2 && continuation n3 && continuation n4
                           && negb ((n1 =? 240) && (n2 <? 144))%N
                           && negb ((n1 =? 244) && (143 <? n2))%N
                        then ((n1 - 240) * 262144 + (n2 - 128) * 4096
                              + (n3 - 128) * 64 + (n4 - 128))%N
                             :: decode_utf8 s4
                        else (RAW + n1)%N :: decode_utf8 s1
                    | EmptyString => (RAW + n1)%N :: decode_utf8 s1
                    end
              | EmptyString => (RAW + n1)%N :: decode_utf8 s1
              end
        | EmptyString => (RAW + n1)%N :: decode_utf8 s1
        end
  end.

Definition encode_code_point (c : N) : string :=
  if (c <? 128)%N then String (ascii_of_N c) EmptyString
  else if (c <? 2048)%N then
    String (ascii_of_N (192 + c / 64))
      (String (ascii_of_N (128 + c mod 64)) EmptyString)
  else if (c <? 65536)%N then
    String (ascii_of_N (224 + c / 4096))
      (String (ascii_of_N (128 + (c / 64) mod 64))
         (String (ascii_of_N (128 + c mod 64)) EmptyString))
  else if (c <? RAW)%N then
    String (ascii_of_N (240 + c / 262144))
      (String (ascii_of_N (128 + (c / 4096) mod 64))
         (String (ascii_of_N (128 + (c / 64) mod 64))
            (String (ascii_of_N (128 + c mod 64)) EmptyString)))
  else String (ascii_of_N (c - RAW)) EmptyString.

Fixpoint encode_utf8 (l : list N) : string :=
  match l with
  | [] => EmptyString
  | c :: l' => (encode_code_point c ++ encode_utf8 l')%string
  end.

(** [s.toLowerCase()]. *)
Definition toLowerCase (s : string) : string :=
  encode_utf8 (lower_from false (decode_utf8 s)).

(** [s.startsWith(t)]: [t] is a prefix of [s]. *)
Fixpoint startsWith (s t : string) {struct t} : bool :=
  match t with
  | EmptyString => true
  | String b t' =>
      match s with
      | EmptyString => false
      | String a s' => Ascii.eqb a b && startsWith s' t'
      end
  end.

(** [s.includes(t)]: [t] occurs in [s] at some position. *)
Fixpoint includes (s t : string) : bool :=
  startsWith s t
  || match s with
     | EmptyString => false
     | String _ s' => includes s' t
     end.

(** [s.replace(/c/g, r)]: every occurrence of the code unit [c] in [s]
    is replaced by the string [r]. *)
Fixpoint replace_g (c : ascii) (r : string) (s : string) : string :=
  match s with
  | EmptyString => EmptyString
  | String a s' =>
      if Ascii.eqb a c then (r ++ replace_g c r s')%string
      else String a (replace_g c r s')
  end.

(** [Array.prototype.join] on an array of strings. *)
Definition join (sep : string) (l : list string) : string :=
  String.concat sep l.

(** *** Numbers

    The page gets the priority of an insight from the JSON text, where it
    is an integer; the script holds the double nearest to it and prints
    that double. *)

(** The decimal digits of a natural number. *)
Definition decimal (n : Z) : string := NilZero.string_of_int (Z.to_int n).

(** The double nearest to the positive integer [n], ties to the even
    significand; [None] when it is infinite. *)
Definition nearest_double (n : Z) : option Z :=
  (if n <? 2 ^ 53 then Some n
   else
     let e := Z.log2 n - 52 in
     let q := Z.shiftr n e in
     let r := n - Z.shiftl q e in
     let half := Z.shiftl 1 (e - 1) in
     let m := if (half <? r) || ((half =? r) && Z.odd q) then q + 1 else q in
     let v := Z.shiftl m e in
     if 2 ^ 1024 <=? v then None else Some v)%Z.

Definition rounds_to (v m : Z) : bool :=
  match nearest_double v with
  | Some d => (d =? m)%Z
  | None => false
  end.

(** The integer with the fewest significant digits that the double [m]
    is nearest to, the closest to [m] among those, of [digits] digits in
    all; [k] is the number of significant digits tried. *)
Fixpoint shortest (m digits : Z) (k : nat) (fuel : nat) : Z :=
  match fuel with
  | O => m
  | S fuel' =>
      (let t := digits - Z.of_nat k in
       if t <=? 0 then m
       else
         let p := 10 ^ t in
         let lo := (m / p) * p in
         let hi := lo + p in
         match rounds_to lo m, rounds_to hi m with
         | true, true =>
             if m - lo <? hi - m then lo
             else if hi - m <? m - lo then hi
             else if Z.even (lo / p) then lo else hi
         | true, false => lo
         | false, true => hi
         | false, false => shortest m digits (S k) fuel'
         end)%Z
  end.

(** A digit string without its zeros at the end. *)
Fixpoint strip_zeros (s : string) : string :=
  match s with
  | EmptyString => EmptyString
  | String c s' =>
      match strip_zeros s' with
      | EmptyString => if Ascii.eqb c "0"%char then EmptyString else String c EmptyString
      | t => String c t
      end
  end.

(** [Number::toString] on a positive double that is an integer. *)
Definition positive_toString (m : Z) : string :=
  (if m <? 2 ^ 53 then decimal m
   else
     let d := decimal m in
     let v := shortest m (Z.of_nat (String.length d)) 1 17 in
     let dv := decimal v in
     if v <? 10 ^ 21 then dv
     else
       match strip_zeros dv with
       | String c EmptyString =>
           String c ("e+" ++ decimal (Z.of_nat (String.length dv) - 1))
       | String c rest =>
           String c ("." ++ rest ++ "e+" ++ decimal (Z.of_nat (String.length dv) - 1))
       | EmptyString => dv
       end)%Z.

(** [String(n)] for the number the script holds for the integer [n] of
    the JSON text. *)
Definition Number_toString (n : Z) : string :=
  match n with
  | Z0 => "0"
  | Zpos _ =>
      match nearest_double n with
      | Some m => positive_toString m
      | None => "Infinity"
      end
  | Zneg _ =>
      match nearest_double (- n) with
      | Some m => String "-" (positive_toString m)
      | None => "-Infinity"
      end
  end.

(** [s.split(sep)[0]] for a one-unit separator: the part of [s] before
    the first [sep], all of [s] when there is none. *)
Fixpoint split_first (sep : ascii) (s : string) : string :=
  match s with
  | EmptyString => EmptyString
  | String a s' =>
      if Ascii.eqb a sep then EmptyString else String a (split_first sep s')
  end.

(** The byte [c] occurs in [s]. *)
Fixpoint occurs (c : ascii) (s : string) : Prop :=
  match s with
  | EmptyString => False
  | String a s' => a = c \/ occurs c s'
  end.

(** Abrupt completion of a script function. *)
Inductive Error : Type :=
| TypeError : string -> Error.

Inductive Completion (A : Type) : Type :=
| Normal : A -> Completion A
| Throw : Error -> Completion A.
Arguments Normal {A} _.
Arguments Throw {A} _.

End JS.

(* ===================================================================== *)
(** ** Data model *)
(* ===================================================================== *)

(** The call-to-action object of an insight. *)
Record Cta : Type := mkCta {
  text : string;
  url : string
}.

(** One insight. The page receives the records through [json.dumps]; the
    export code tests [cta], [templateKeys] and [requiredContext] for
    presence, so these three are optional here ([None] is an absent key or
    a [null]). The strings are script strings; [priority] is the integer
    written in the JSON text. *)
Record Insight : Type := mkInsight {
  id : string;
  content : string;
  status : string;
  priority : Z;
  isDynamic : bool;
  hasCta : bool;
  cta : option Cta;
  requiredContext : option (list string);
  requiresPrimaryUser : bool;
  requiresProfileComplete : bool;
  templateKeys : option (list string)
}.


(* ===================================================================== *)
(** ** The resolver (Python) *)
(* ===================================================================== *)

(** Exceptions that opening, reading and writing a file and printing a
    line raise; each one is a subclass of [Exception]. [OtherException]
    stands for any further subclass, by its name. *)
Inductive PyException : Type :=
| FileNotFoundError
| PermissionError
| IsADirectoryError
| UnicodeDecodeError
| MemoryError
| UnicodeEncodeError
| BrokenPipeError
| OtherException (name : string).

Inductive Result (A : Type) : Type :=
| Ok : A -> Result A
| Raise : PyException -> Result A.
Arguments Ok {A} _.
Arguments Raise {A} _.

Definition bind {A B : Type} (r : Result A) (k : A -> Result B) : Result B :=
  match r with
  | Ok a => k a
  | Raise e => Raise e
  end.

(** [try: body except Exception: handler]; every [PyException] is caught. *)
Definition try_except {A : Type} (body : Result A) (handler : PyException -> Result A)
  : Result A :=
  match body with
  | Ok a => Ok a
  | Raise e => handler e
  end.

(** What the program sees of its environment: the process environment,
    [os.path.exists], [open(p, 'r')] followed by [read()], [print] of one
    line, which raises when the line cannot be written to the standard
    output, [str(e)] of an exception that a read raised, and
    [open(p, 'w')] followed by [write(text)]. The lines a run prints are
    all different, so a function of the line tells which prints succeed. *)
Record Env : Type := mkEnv {
  environ_get : string -> option string;
  os_path_exists : string -> bool;
  open_read : string -> Result string;
  print : string -> Result unit;
  exception_str : PyException -> string;
  open_write : string -> string -> Result unit
}.

(** [s.startswith(t)] and the truth value of a [str] ([''] is false). *)
Definition startswith (s t : string) : bool := JS.startsWith s t.
Definition str_bool (s : string) : bool := JS.truthy s.

(** [s.endswith('/')]. *)
Fixpoint endswith_slash (s : string) : bool :=
  match s with
  | EmptyString => false
  | String a EmptyString => Ascii.eqb a "/"%char
  | String _ s' => endswith_slash s'
  end.

(** [os.path.join(a, b)] of [posixpath]. *)
Definition os_path_join (a b : string) : string :=
  if startswith b "/" then b
  else if negb (str_bool a) || endswith_slash a then (a ++ b)%string
  else (a ++ "/" ++ b)%string.

Definition get_hardcoded_insights : list Insight :=
  [ {| id := "SMRT1";
       content := "Interest rates can be unpredictable. But there are ways to access your equity without losing your current low mortgage rate.";
       status := "live";
       priority := 1;
       isDynamic := false;
       hasCta := true;
       cta := Some {| text := "See ways to access equity";
                      url := "https://www.hometap.com/blog/cash-out-refinance-vs-a-home-equity-loan/" |};
       requiredContext := Some ["SYSTEM"];
       requiresPrimaryUser := false;
       requiresProfileComplete := false;
       templateKeys := Some [] |} ].

Definition definitions_rel : string :=
  "eng_portals/portals/portals/apps/smart_facts/definitions.py".
Definition templates_rel : string :=
  "eng_portals/portals/portals/apps/smart_facts/display_templates.py".

Definition extract_from_files (env : Env) (codebase_path : string)
  : Result (list Insight) :=
  let insights := [] in
  let definitions_file := os_path_join codebase_path definitions_rel in
  let templates_file := os_path_join codebase_path templates_rel in
  if os_path_exists env definitions_file && os_path_exists env templates_file then
    bind (open_read env definitions_file) (fun definitions_content =>
    bind (open_read env templates_file) (fun templates_content =>
    Ok get_hardcoded_insights))
  else Ok insights.

Definition possible_paths (env : Env) : list (option string) :=
  [ environ_get env "CODEBASE_PATH";
    Some "../hometap";
    Some "../../hometap";
    Some "/tmp/codebase" ].

(** The [for path in possible_paths] loop with its [break]: the first
    truthy path that exists, [None] when there is none. *)
Fixpoint first_existing (env : Env) (paths : list (option string)) : option string :=
  match paths with
  | [] => None
  | path :: rest =>
      match path with
      | Some p =>
          if str_bool p && os_path_exists env p then Some p
          else first_existing env rest
      | None => first_existing env rest
      end
  end.

(** The line the handler prints for the exception [e]. *)
Definition error_line (env : Env) (e : PyException) : string :=
  ("Error extracting from codebase: " ++ exception_str env e)%string.

Definition extract_smart_facts_from_codebase (env : Env) : Result (list Insight) :=
  let codebase_path := first_existing env (possible_paths env) in
  try_except
    (match codebase_path with
     | Some p => extract_from_files env p
     | None => Ok get_hardcoded_insights
     end)
    (fun e =>
       bind (print env (error_line env e))
            (fun _ => Ok get_hardcoded_insights)).

(* ===================================================================== *)
(** ** The view engine (script embedded in the page) *)
(* ===================================================================== *)

(** The object returned by [smartFactsDashboard()]. *)
Record Dashboard : Type := mkDashboard {
  searchQuery : string;
  statusFilter : string;
  typeFilter : string;
  viewMode : string;
  insights : list Insight
}.

Definition smartFactsDashboard (insights_json : list Insight) : Dashboard :=
  {| searchQuery := "";
     statusFilter := "";
     typeFilter := "";
     viewMode := "grid";
     insights := insights_json |}.

Definition matchesSearch (this : Dashboard) (insight : Insight) : bool :=
  negb (JS.truthy (searchQuery this))
  || JS.includes (JS.toLowerCase (id insight)) (JS.toLowerCase (searchQuery this))
  || JS.includes (JS.toLowerCase (content insight)) (JS.toLowerCase (searchQuery this)).

Definition matchesStatus (this : Dashboard) (insight : Insight) : bool :=
  negb (JS.truthy (statusFilter this))
  || String.eqb (status insight) (statusFilter this).

Definition matchesType (this : Dashboard) (insight : Insight) : bool :=
  negb (JS.truthy (typeFilter this))
  || (String.eqb (typeFilter this) "static" && negb (isDynamic insight))
  || (String.eqb (typeFilter this) "dynamic" && isDynamic insight).

Definition filteredInsights (this : Dashboard) : list Insight :=
  List.filter
    (fun insight =>
       matchesSearch this insight && matchesStatus this insight && matchesType this insight)
    (insights this).

Record Stats : Type := mkStats {
  total : nat;
  live : nat;
  review : nat;
  dynamic : nat;
  withCta : nat;
  retired : nat
}.

Definition stats (this : Dashboard) : Stats :=
  {| total := length (insights this);
     live := length (List.filter (fun i => String.eqb (status i) "live") (insights this));
     review := length (List.filter (fun i => String.eqb (status i) "review") (insights this));
     dynamic := length (List.filter (fun i => isDynamic i) (insights this));
     withCta := length (List.filter (fun i => hasCta i) (insights this));
     retired := length (List.filter (fun i => String.eqb (status i) "retired") (insights this)) |}.

(** Values held by a row object: strings, the number of [Priority], and
    [undefined] for the read of a key the row does not have. *)
Inductive Value : Type :=
| VString : string -> Value
| VNumber : Z -> Value
| VUndefined : Value.

(** A row object: its keys in insertion order, which is the order
    [Object.keys] returns. *)
Definition RowObject : Type := list (string * Value).

Definition Object_keys (o : RowObject) : list string := map fst o.

Fixpoint get (o : RowObject) (key : string) : Value :=
  match o with
  | [] => VUndefined
  | (k, v) :: o' => if String.eqb k key then v else get o' key
  end.

Definition yes_no (b : bool) : string := if b then "Yes" else "No".

(** The callback of [this.filteredInsights.map(...)]. *)
Definition csvRow (insight : Insight) : RowObject :=
  [ ("ID", VString (id insight));
    ("Status", VString (status insight));
    ("Priority", VNumber (priority insight));
    ("Type", VString (if isDynamic insight then "Dynamic" else "Static"));
    ("Content",
      VString (JS.replace_g JS.CR "" (JS.replace_g JS.LF " " (content insight))));
    ("Dynamic Variables",
      VString (match templateKeys insight with
               | Some keys => JS.join "; " keys
               | None => ""
               end));
    ("CTA Text", VString (match cta insight with Some c => text c | None => "" end));
    ("CTA URL", VString (match cta insight with Some c => url c | None => "" end));
    ("Required Context",
      VString (match requiredContext insight with
               | Some ctx => JS.join "; " ctx
               | None => ""
               end));
    ("Requires Primary User", VString (yes_no (requiresPrimaryUser insight)));
    ("Requires Profile Complete", VString (yes_no (requiresProfileComplete insight)));
    ("Has CTA", VString (yes_no (hasCta insight))) ].

Definition dquote : string := String JS.DQUOTE EmptyString.
Definition newline : string := String JS.LF EmptyString.

(** The test of the quoting branch on a string value. *)
Definition needsQuoting (value : string) : bool :=
  JS.includes value "," || JS.includes value dquote || JS.includes value newline.

(** The value wrapped in double quotes, its own double quotes doubled. *)
Definition quoted (value : string) : string :=
  (dquote ++ JS.replace_g JS.DQUOTE (dquote ++ dquote) value ++ dquote)%string.

(** The callback of [headers.map(...)] applied to [row[header]]. *)
Definition csvField (value : Value) : Value :=
  match value with
  | VString s => if needsQuoting s then VString (quoted s) else value
  | _ => value
  end.

(** How [Array.prototype.join] prints one element. *)
Definition join_element (v : Value) : string :=
  match v with
  | VString s => s
  | VNumber n => JS.Number_toString n
  | VUndefined => ""
  end.

Definition csvLine (headers : list string) (row : RowObject) : string :=
  JS.join "," (map (fun header => join_element (csvField (get row header))) headers).

(** The file handed to the browser by the click on the hidden link. *)
Record Download : Type := mkDownload {
  download : string;
  type : string;
  body : string
}.

(** [exportToCSV()]; [now] is [new Date().toISOString()]. The method
    returns nothing: its outcome is the download it triggers, or the
    exception it throws. *)
Definition exportToCSV (now : string) (this : Dashboard) : JS.Completion Download :=
  let csvData := map csvRow (filteredInsights this) in
  match csvData with
  | [] => JS.Throw (JS.TypeError "Cannot convert undefined or null to object")
  | first :: _ =>
      let headers := Object_keys first in
      let csvContent :=
        JS.join newline (JS.join "," headers :: map (csvLine headers) csvData) in
      JS.Normal
        {| download :=
             ("smart_facts_export_" ++ JS.split_first "T"%char now ++ ".csv")%string;
           type := "text/csv;charset=utf-8;";
           body := csvContent |}
  end.

(* ===================================================================== *)
(** ** Predicates of the specification *)
(* ===================================================================== *)

(** [t] is a substring of [s]. *)
Definition substring (t s : string) : Prop :=
  exists pre post : string, s = (pre ++ t ++ post)%string.

(** The search test as the code makes it: on the lower-case forms. *)
Definition matchesSearch_spec (this : Dashboard) (insight : Insight) : Prop :=
  searchQuery this = ""
  \/ substring (JS.toLowerCase (searchQuery this)) (JS.toLowerCase (id insight))
  \/ substring (JS.toLowerCase (searchQuery this)) (JS.toLowerCase (content insight)).

(** A text of Basic Latin: every byte is below 128. *)
Fixpoint is_ascii (s : string) : Prop :=
  match s with
  | EmptyString => True
  | String c s' => (N_of_ascii c < 128)%N /\ is_ascii s'
  end.

(** A byte with the capital letters A to Z made small. *)
Definition fold_unit (c : ascii) : ascii :=
  if ((65 <=? N_of_ascii c) && (N_of_ascii c <=? 90))%N
  then ascii_of_N (N_of_ascii c + 32)
  else c.

Fixpoint fold_case (s : string) : string :=
  match s with
  | EmptyString => EmptyString
  | String c s' => String (fold_unit c) (fold_case s')
  end.

(** [q] is a substring of [s] up to the case of the letters A to Z: some
    stretch of [s] differs from [q] in the case of such letters at most. *)
Definition contains_ignoring_case (s q : string) : Prop :=
  exists pre mid post : string,
    s = (pre ++ mid ++ post)%string /\ fold_case mid = fold_case q.

(** The search test of the specification on texts of Basic Latin. *)
Definition matchesSearch_ignoring_case (this : Dashboard) (insight : Insight) : Prop :=
  searchQuery this = ""
  \/ contains_ignoring_case (id insight) (searchQuery this)
  \/ contains_ignoring_case (content insight) (searchQuery this).

(** The Greek capitals delta, omicron, sigma, and with an alpha after
    them. *)
Definition delta_omicron_sigma : string := JS.encode_utf8 [916; 927; 931]%N.
Definition delta_omicron_sigma_alpha : string :=
  JS.encode_utf8 [916; 927; 931; 913]%N.

(** An insight whose id is the second of these words. *)
Definition insight_sigma : Insight :=
  {| id := delta_omicron_sigma_alpha; content := "greek"; status := "live";
     priority := 1; isDynamic := false; hasCta := false; cta := None;
     requiredContext := None; requiresPrimaryUser := false;
     requiresProfileComplete := false; templateKeys := None |}.

(** The page loaded with it, the first word typed into the search box. *)
Definition page_sigma : Dashboard :=
  {| searchQuery := delta_omicron_sigma; statusFilter := ""; typeFilter := "";
     viewMode := "grid"; insights := [insight_sigma] |}.

Definition matchesStatus_spec (this : Dashboard) (insight : Insight) : Prop :=
  statusFilter this = "" \/ status insight = statusFilter this.

Definition matchesType_spec (this : Dashboard) (insight : Insight) : Prop :=
  typeFilter this = ""
  \/ (typeFilter this = "static" /\ isDynamic insight = false)
  \/ (typeFilter this = "dynamic" /\ isDynamic insight = true).

(** The number of elements of [l] that pass [p]. *)
Fixpoint count {A : Type} (p : A -> bool) (l : list A) : nat :=
  match l with
  | [] => 0
  | x :: l' => (if p x then 1 else 0) + count p l'
  end.

(** The columns of the export, in order. *)
Definition columns : list string :=
  [ "ID"; "Status"; "Priority"; "Type"; "Content"; "Dynamic Variables";
    "CTA Text"; "CTA URL"; "Required Context"; "Requires Primary User";
    "Requires Profile Complete"; "Has CTA" ].

(** A text on one line: every line feed becomes one space and every
    carriage return is dropped. *)
Fixpoint on_one_line (s : string) : string :=
  match s with
  | EmptyString => EmptyString
  | String a s' =>
      if Ascii.eqb a JS.LF then String JS.SPACE (on_one_line s')
      else if Ascii.eqb a JS.CR then on_one_line s'
      else String a (on_one_line s')
  end.

(** Every double quote of [s] written twice. *)
Fixpoint double_quotes (s : string) : string :=
  match s with
  | EmptyString => EmptyString
  | String a s' =>
      if Ascii.eqb a JS.DQUOTE
      then String JS.DQUOTE (String JS.DQUOTE (double_quotes s'))
      else String a (double_quotes s')
  end.

(** [s] wrapped in double quotes, its own double quotes doubled. *)
Definition wrapped (s : string) : string :=
  String JS.DQUOTE (double_quotes s ++ String JS.DQUOTE EmptyString)%string.

(** [s] holds a comma, a double quote or a line feed. *)
Definition has_special (s : string) : Prop :=
  JS.occurs JS.COMMA s \/ JS.occurs JS.DQUOTE s \/ JS.occurs JS.LF s.

(** The field the export writes for a value of a row. *)
Definition emitted (v : Value) : string := join_element (csvField v).

(** The lines of the export of a non-empty filtered sequence. *)
Definition csv_lines (l : list Insight) : list string :=
  JS.join "," columns :: map (fun insight => csvLine columns (csvRow insight)) l.

(** *** Sample inputs *)

(** The text [Hello, "World"] followed by a line feed and [Line2]. *)
Definition hello_content : string :=
  ("Hello, " ++ dquote ++ "World" ++ dquote ++ newline ++ "Line2")%string.

(** The field [Hello, ""World"" Line2] between double quotes. *)
Definition hello_field : string :=
  (dquote ++ "Hello, " ++ dquote ++ dquote ++ "World" ++ dquote ++ dquote
   ++ " Line2" ++ dquote)%string.

Definition insight_A : Insight :=
  {| id := "A"; content := "alpha"; status := "live"; priority := 1;
     isDynamic := false; hasCta := false; cta := None;
     requiredContext := None; requiresPrimaryUser := false;
     requiresProfileComplete := false; templateKeys := None |}.

Definition insight_B : Insight :=
  {| id := "B"; content := "beta {x}"; status := "retired"; priority := 2;
     isDynamic := true; hasCta := true;
     cta := Some {| text := "Go"; url := "https://example.org/" |};
     requiredContext := Some ["SYSTEM"; "HOME"]; requiresPrimaryUser := true;
     requiresProfileComplete := false; templateKeys := Some ["x"] |}.

Definition insight_hello : Insight :=
  {| id := "H"; content := hello_content; status := "draft"; priority := 3;
     isDynamic := true; hasCta := false; cta := None;
     requiredContext := Some []; requiresPrimaryUser := false;
     requiresProfileComplete := true; templateKeys := Some ["x"; "y"] |}.

(** No override in the environment; [../hometap] exists and holds neither
    of the two files. *)
Definition env_missing_files : Env :=
  {| environ_get := fun _ => None;
     os_path_exists := fun p => String.eqb p "../hometap";
     open_read := fun _ => Raise FileNotFoundError;
     print := fun _ => Ok tt;
     exception_str := fun _ => "";
     open_write := fun _ _ => Ok tt |}.

(** The override names [/srv/code], which exists and holds
    [definitions.py] and no [display_templates.py]. *)
Definition env_missing_templates : Env :=
  {| environ_get := fun k =>
       if String.eqb k "CODEBASE_PATH" then Some "/srv/code" else None;
     os_path_exists := fun p =>
       String.eqb p "/srv/code"
       || String.eqb p (os_path_join "/srv/code" definitions_rel);
     open_read := fun p =>
       if String.eqb p (os_path_join "/srv/code" definitions_rel)
       then Ok "DEFINITIONS = []"
       else Raise FileNotFoundError;
     print := fun _ => Ok tt;
     exception_str := fun _ => "";
     open_write := fun _ _ => Ok tt |}.

(** No override and none of the fixed locations exists. *)
Definition env_nothing : Env :=
  {| environ_get := fun _ => None;
     os_path_exists := fun _ => false;
     open_read := fun _ => Raise FileNotFoundError;
     print := fun _ => Ok tt;
     exception_str := fun _ => "";
     open_write := fun _ _ => Ok tt |}.

(** The override names [/srv/code]; both files exist and the first one
    cannot be read. *)
Definition env_unreadable : Env :=
  {| environ_get := fun k =>
       if String.eqb k "CODEBASE_PATH" then Some "/srv/code" else None;
     os_path_exists := fun _ => true;
     open_read := fun _ => Raise PermissionError;
     print := fun _ => Ok tt;
     exception_str := fun _ => "[Errno 13] Permission denied";
     open_write := fun _ _ => Ok tt |}.

(** Record updates of the filter state. *)
Definition with_searchQuery (q : string) (this : Dashboard) : Dashboard :=
  {| searchQuery := q;
     statusFilter := statusFilter this;
     typeFilter := typeFilter this;
     viewMode := viewMode this;
     insights := insights this |}.

Definition with_statusFilter (f : string) (this : Dashboard) : Dashboard :=
  {| searchQuery := searchQuery this;
     statusFilter := f;
     typeFilter := typeFilter this;
     viewMode := viewMode this;
     insights := insights this |}.

Definition with_typeFilter (f : string) (this : Dashboard) : Dashboard :=
  {| searchQuery := searchQuery this;
     statusFilter := statusFilter this;
     typeFilter := f;
     viewMode := viewMode this;
     insights := insights this |}.

Definition with_viewMode (m : string) (this : Dashboard) : Dashboard :=
  {| searchQuery := searchQuery this;
     statusFilter := statusFilter this;
     typeFilter := typeFilter this;
     viewMode := m;
     insights := insights this |}.

(* ===================================================================== *)
(** ** The page generator (Python) *)
(* ===================================================================== *)

(** *** [str.format] with keyword arguments that are strings

    The markup scanner of CPython (3.4 and later), one code unit at a
    time. [Beyond] stands for the runs this model does not follow: a
    positional or automatically numbered field, and an attribute, an
    index, a conversion or a non-empty format specification applied to an
    argument that was found. *)

Inductive FormatException : Type :=
| KeyError : string -> FormatException
| ValueError : string -> FormatException.

Inductive FormatOutcome : Type :=
| Rendered : string -> FormatOutcome
| Raises : FormatException -> FormatOutcome
| Beyond : FormatOutcome.

Definition OPEN : ascii := "{"%char.
Definition CLOSE : ascii := "}"%char.

Definition snoc (s : string) (c : ascii) : string := (s ++ String c EmptyString)%string.

Definition is_decimal (c : ascii) : bool :=
  ((48 <=? N_of_ascii c) && (N_of_ascii c <=? 57))%N.

Fixpoint all_decimal (s : string) : bool :=
  match s with
  | EmptyString => true
  | String c s' => is_decimal c && all_decimal s'
  end.

(** The part of a field name before its first [.] or [[]. *)
Fixpoint first_part (name : string) : string :=
  match name with
  | EmptyString => EmptyString
  | String c name' =>
      if Ascii.eqb c "."%char || Ascii.eqb c "["%char then EmptyString
      else String c (first_part name')
  end.

Fixpoint kwargs_get (kwargs : list (string * string)) (key : string) : option string :=
  match kwargs with
  | [] => None
  | (k, v) :: kwargs' => if String.eqb k key then Some v else kwargs_get kwargs' key
  end.

Inductive Mode : Type :=
| InLiteral
| AfterOpen
| AfterClose
| InName (name : string)
| InBracket (name : string)
| AfterBang (name : string)
| AfterConversion (name : string) (conversion : ascii)
| InSpec (name : string) (conversion : option ascii) (spec : string) (nested : nat).

Inductive Step : Type :=
| Go : Mode -> string -> Step
| Stop : FormatOutcome -> Step.

(** A complete replacement field: the argument is looked up first. *)
Definition close_field (kwargs : list (string * string)) (out : string)
    (name : string) (conversion : option ascii) (spec : string) : Step :=
  let first := first_part name in
  if negb (JS.truthy first) || all_decimal first then Stop Beyond
  else
    match kwargs_get kwargs first with
    | None => Stop (Raises (KeyError first))
    | Some value =>
        match conversion, spec with
        | None, EmptyString =>
            if String.eqb name first then Go InLiteral (out ++ value)%string
            else Stop Beyond
        | _, _ => Stop Beyond
        end
    end.

(** One code unit inside a field name. *)
Definition name_step (kwargs : list (string * string)) (out : string)
    (name : string) (c : ascii) : Step :=
  if Ascii.eqb c OPEN then Stop (Raises (ValueError "unexpected '{' in field name"))
  else if Ascii.eqb c "["%char then Go (InBracket (snoc name c)) out
  else if Ascii.eqb c CLOSE then close_field kwargs out name None EmptyString
  else if Ascii.eqb c ":"%char then Go (InSpec name None EmptyString 0) out
  else if Ascii.eqb c "!"%char then Go (AfterBang name) out
  else Go (InName (snoc name c)) out.

Definition step (kwargs : list (string * string)) (mode : Mode) (out : string)
    (c : ascii) : Step :=
  match mode with
  | InLiteral =>
      if Ascii.eqb c OPEN then Go AfterOpen out
      else if Ascii.eqb c CLOSE then Go AfterClose out
      else Go InLiteral (snoc out c)
  | AfterOpen =>
      if Ascii.eqb c OPEN then Go InLiteral (snoc out OPEN)
      else name_step kwargs out EmptyString c
  | AfterClose =>
      if Ascii.eqb c CLOSE then Go InLiteral (snoc out CLOSE)
      else Stop (Raises (ValueError "Single '}' encountered in format string"))
  | InName name => name_step kwargs out name c
  | InBracket name =>
      if Ascii.eqb c "]"%char then Go (InName (snoc name c)) out
      else Go (InBracket (snoc name c)) out
  | AfterBang name => Go (AfterConversion name c) out
  | AfterConversion name conversion =>
      if Ascii.eqb c CLOSE then close_field kwargs out name (Some conversion) EmptyString
      else if Ascii.eqb c ":"%char then Go (InSpec name (Some conversion) EmptyString 0) out
      else Stop (Raises (ValueError "expected ':' after conversion specifier"))
  | InSpec name conversion spec nested =>
      if Ascii.eqb c OPEN then Go (InSpec name conversion (snoc spec c) (S nested)) out
      else if Ascii.eqb c CLOSE then
        match nested with
        | O => close_field kwargs out name conversion spec
        | S n => Go (InSpec name conversion (snoc spec c) n) out
        end
      else Go (InSpec name conversion (snoc spec c) nested) out
  end.

(** The end of the format string. *)
Definition at_end (mode : Mode) (out : string) : FormatOutcome :=
  match mode with
  | InLiteral => Rendered out
  | AfterOpen => Raises (ValueError "Single '{' encountered in format string")
  | AfterClose => Raises (ValueError "Single '}' encountered in format string")
  | InName _ | InBracket _ => Raises (ValueError "expected '}' before end of string")
  | AfterBang _ =>
      Raises (ValueError "end of string while looking for conversion specifier")
  | AfterConversion _ _ | InSpec _ _ _ _ =>
      Raises (ValueError "unmatched '{' in format spec")
  end.

Fixpoint format_from (kwargs : list (string * string)) (mode : Mode) (out : string)
    (s : string) : FormatOutcome :=
  match s with
  | EmptyString => at_end mode out
  | String c s' =>
      match step kwargs mode out c with
      | Go mode' out' => format_from kwargs mode' out' s'
      | Stop r => r
      end
  end.

(** [template.format] called with the keyword arguments [kwargs]. *)
Definition str_format (template : string) (kwargs : list (string * string))
  : FormatOutcome :=
  format_from kwargs InLiteral EmptyString template.

(** *** generate_dashboard_html and main *)

(** [html_template] from its first line to the end of the first rule of
    the style sheet. *)
Definition html_template_head : string :=
  String.concat newline
    [ "<!DOCTYPE html>";
      ("<html lang=" ++ dquote ++ "en" ++ dquote ++ ">")%string;
      "<head>";
      ("    <meta charset=" ++ dquote ++ "UTF-8" ++ dquote ++ ">")%string;
      ("    <meta name=" ++ dquote ++ "viewport" ++ dquote ++ " content=" ++ dquote
       ++ "width=device-width, initial-scale=1.0" ++ dquote ++ ">")%string;
      "    <title>Smart Facts Dashboard - Marketing Team</title>";
      ("    <script src=" ++ dquote ++ "https://cdn.tailwindcss.com" ++ dquote
       ++ "></script>")%string;
      ("    <script src=" ++ dquote
       ++ "https://unpkg.com/alpinejs@3.x.x/dist/cdn.min.js" ++ dquote
       ++ " defer></script>")%string;
      "    <style>";
      "        .gradient-bg {";
      "            background: linear-gradient(135deg, #667eea 0%, #764ba2 100%);";
      "        }" ].

(** The field name the scanner reads in that rule: a line feed, twelve
    spaces and the word background. *)
Definition first_rule_name : string :=
  (newline ++ "            background")%string.

(** The value returned by [main]. *)
Record Response : Type := mkResponse {
  statusCode : Z;
  headers : list (string * string);
  response_body : string
}.

Inductive MainOutcome : Type :=
| Returned : Response -> MainOutcome
| Raised : PyException -> MainOutcome
| FormatRaised : FormatException -> MainOutcome
| FormatBeyond : MainOutcome.

(** [str(n)] of a length. *)
Definition str_nat (n : nat) : string := NilZero.string_of_uint (Nat.to_uint n).

(** A run of [main]: the files it opened for writing, as path and text
    handed to [write], and how it ended. *)
Record MainRun : Type := mkMainRun {
  written : list (string * string);
  outcome : MainOutcome
}.

Section Generator.

(** [json.dumps(insights, indent=2)], the text of
    [datetime.now().strftime(...)] and the text of [html_template] after
    the first rule of the style sheet. *)
Variable json_dumps : list Insight -> string.
Variable last_updated : string.
Variable html_template_rest : string.

Definition html_template : string :=
  (html_template_head ++ html_template_rest)%string.

Definition generate_dashboard_html (insights : list Insight) : FormatOutcome :=
  let insights_json := json_dumps insights in
  str_format html_template
    [ ("insights_json", insights_json); ("last_updated", last_updated) ].

(** The end of [main], from the write of the page on. *)
Definition write_and_return (env : Env) (insights : list Insight)
    (html_content : string) : MainOutcome :=
  match open_write env "index.html" html_content with
  | Raise e => Raised e
  | Ok _ =>
      match print env "Dashboard built successfully!" with
      | Raise e => Raised e
      | Ok _ =>
          match print env ("Generated index.html with "
                           ++ str_nat (length insights) ++ " insights")%string with
          | Raise e => Raised e
          | Ok _ =>
              Returned {| statusCode := 200;
                          headers := [ ("Content-Type", "text/html") ];
                          response_body := html_content |}
          end
      end
  end.

Definition main (env : Env) : MainRun :=
  match print env "Building Smart Facts Dashboard..." with
  | Raise e => {| written := []; outcome := Raised e |}
  | Ok _ =>
      match extract_smart_facts_from_codebase env with
      | Raise e => {| written := []; outcome := Raised e |}
      | Ok insights =>
          match print env ("Extracted " ++ str_nat (length insights)
                           ++ " insights")%string with
          | Raise e => {| written := []; outcome := Raised e |}
          | Ok _ =>
              match generate_dashboard_html insights with
              | Raises e => {| written := []; outcome := FormatRaised e |}
              | Beyond => {| written := []; outcome := FormatBeyond |}
              | Rendered html_content =>
                  {| written := [ ("index.html", html_content) ];
                     outcome := write_and_return env insights html_content |}
              end
          end
      end
  end.

End Generator.

(** A text with every brace written twice, as the script part of the
    template writes its braces. *)
Fixpoint escape_braces (s : string) : string :=
  match s with
  | EmptyString => EmptyString
  | String c s' =>
      if Ascii.eqb c OPEN || Ascii.eqb c CLOSE
      then String c (String c (escape_braces s'))
      else String c (escape_braces s')
  end.

(** [s] holds no brace. *)
Definition brace_free (s : string) : Prop :=
  ~ JS.occurs OPEN s /\ ~ JS.occurs CLOSE s.

(** A name that the scanner reads as one plain keyword: not empty, not a
    number, and without any of the code units that end or structure a
    field name. *)
Fixpoint plain_units (s : string) : bool :=
  match s with
  | EmptyString => true
  | String c s' =>
      negb (Ascii.eqb c OPEN || Ascii.eqb c CLOSE || Ascii.eqb c "["%char
            || Ascii.eqb c "."%char || Ascii.eqb c ":"%char || Ascii.eqb c "!"%char)
      && plain_units s'
  end.

Definition plain_name (s : string) : bool :=
  JS.truthy s && negb (all_decimal s) && plain_units s.

(* ===================================================================== *)
(** ** The controls of the page *)
(* ===================================================================== *)

(** The options of the status select and the values they carry. *)
Inductive StatusOption : Type :=
| AllStatuses | Live | UnderReview | Draft | Retired | Archived.

Definition status_value (o : StatusOption) : string :=
  match o with
  | AllStatuses => ""
  | Live => "live"
  | UnderReview => "review"
  | Draft => "draft"
  | Retired => "retired"
  | Archived => "archived"
  end.

(** The options of the type select. *)
Inductive TypeOption : Type :=
| AllTypes | StaticContent | DynamicContent.

Definition type_value (o : TypeOption) : string :=
  match o with
  | AllTypes => ""
  | StaticContent => "static"
  | DynamicContent => "dynamic"
  end.

(** What the user can do: type in the search box ([x-model] on
    [searchQuery]), choose an option of either select ([x-model] on
    [statusFilter] and [typeFilter]), and click one of the three buttons. *)
Inductive Event : Type :=
| InputSearch (value : string)
| SelectStatus (o : StatusOption)
| SelectType (o : TypeOption)
| ClickGrid
| ClickList
| ClickExport.

(** The state after an event. [exportToCSV] assigns nothing. *)
Definition dispatch (this : Dashboard) (e : Event) : Dashboard :=
  match e with
  | InputSearch value => with_searchQuery value this
  | SelectStatus o => with_statusFilter (status_value o) this
  | SelectType o => with_typeFilter (type_value o) this
  | ClickGrid => with_viewMode "grid" this
  | ClickList => with_viewMode "list" this
  | ClickExport => this
  end.

Definition run (this : Dashboard) (events : list Event) : Dashboard :=
  fold_left dispatch events this.

(** The three [x-show] tests of the insights display. *)
Definition gridShown (this : Dashboard) : bool := String.eqb (viewMode this) "grid".
Definition listShown (this : Dashboard) : bool := String.eqb (viewMode this) "list".
Definition emptyStateShown (this : Dashboard) : bool :=
  Nat.eqb (length (filteredInsights this)) 0.

(* ===================================================================== *)
(** ** Further predicates and sample inputs *)
(* ===================================================================== *)

(** What the resolver returns when the print of its handler does not
    raise, read off [os.environ] and [os.path.exists] alone: the empty
    sequence when a location is found that lacks one of the two files, the
    built-in sequence otherwise. *)
Definition resolved (env : Env) : list Insight :=
  match first_existing env (possible_paths env) with
  | Some p =>
      if os_path_exists env (os_path_join p definitions_rel)
         && os_path_exists env (os_path_join p templates_rel)
      then get_hardcoded_insights
      else []
  | None => get_hardcoded_insights
  end.

(** Two ways of reading that fail on the same paths with the same
    exception, and may give different text where they succeed. *)
Definition same_failures (read1 read2 : string -> Result string) : Prop :=
  forall p,
    match read1 p, read2 p with
    | Ok _, Ok _ => True
    | Raise e1, Raise e2 => e1 = e2
    | _, _ => False
    end.

(** The three locations tried after the override. *)
Definition fixed_paths : list string :=
  [ "../hometap"; "../../hometap"; "/tmp/codebase" ].

(** The values the two selects can carry. *)
Definition status_values : list string :=
  [ ""; "live"; "review"; "draft"; "retired"; "archived" ].
Definition type_values : list string := [ ""; "static"; "dynamic" ].

(** What every event keeps. *)
Definition page_invariant (l : list Insight) (this : Dashboard) : Prop :=
  insights this = l
  /\ In (statusFilter this) status_values
  /\ In (typeFilter this) type_values
  /\ (viewMode this = "grid" \/ viewMode this = "list").

(** The override names a location that does not exist; [../../hometap]
    exists and holds both files. *)
Definition env_second_fallback : Env :=
  {| environ_get := fun k =>
       if String.eqb k "CODEBASE_PATH" then Some "/nowhere" else None;
     os_path_exists := fun p => JS.startsWith p "../../hometap";
     open_read := fun _ => Ok "x = 1";
     print := fun _ => Ok tt;
     exception_str := fun _ => "";
     open_write := fun _ _ => Ok tt |}.

(** As [env_unreadable], with a standard output that accepts no line
    starting with [Error]. *)
Definition env_print_fails : Env :=
  {| environ_get := fun k =>
       if String.eqb k "CODEBASE_PATH" then Some "/srv/code" else None;
     os_path_exists := fun _ => true;
     open_read := fun _ => Raise PermissionError;
     print := fun line =>
       if JS.startsWith line "Error" then Raise UnicodeEncodeError else Ok tt;
     exception_str := fun _ => "[Errno 13] Permission denied";
     open_write := fun _ _ => Ok tt |}.

(** As [env_second_fallback], with other text in the files. *)
Definition env_other_text : Env :=
  {| environ_get := fun k =>
       if String.eqb k "CODEBASE_PATH" then Some "/nowhere" else None;
     os_path_exists := fun p => JS.startsWith p "../../hometap";
     open_read := fun _ => Ok "y = 2";
     print := fun _ => Ok tt;
     exception_str := fun _ => "";
     open_write := fun _ _ => Ok tt |}.

(** A live dynamic insight without optional fields. *)
Definition insight_C : Insight :=
  {| id := "C"; content := "Gamma RAY"; status := "live"; priority := 5;
     isDynamic := true; hasCta := false; cta := None;
     requiredContext := None; requiresPrimaryUser := false;
     requiresProfileComplete := false; templateKeys := None |}.

(* ===================================================================== *)
(** ** Strings: prefix and substring search *)
(* ===================================================================== *)

Section StringFacts.

Local Open Scope string_scope.

Lemma append_empty_r (s : string) : s ++ "" = s.
Proof. induction s as [|a s IH]; simpl; [reflexivity | now rewrite IH]. Qed.

Lemma append_assoc (s t u : string) : (s ++ t) ++ u = s ++ t ++ u.
Proof. induction s as [|a s IH]; simpl; [reflexivity | now rewrite IH]. Qed.

Lemma truthy_false_iff (s : string) : JS.truthy s = false <-> s = "".
Proof. destruct s; simpl; split; intros H; congruence. Qed.

Lemma startsWith_iff (s t : string) :
  JS.startsWith s t = true <-> exists post, s = t ++ post.
Proof.
  revert s. induction t as [|b t IH]; intros s; simpl.
  - split; [intros _; now exists s | reflexivity].
  - destruct s as [|a s].
    + split; [discriminate | intros [post H]; discriminate].
    + rewrite andb_true_iff, Ascii.eqb_eq, IH. split.
      * intros [-> [post ->]]. now exists post.
      * intros [post H]. injection H as -> ->. split; [reflexivity | now exists post].
Qed.

Lemma includes_iff (s t : string) :
  JS.includes s t = true <-> exists pre post, s = pre ++ t ++ post.
Proof.
  induction s as [|a s IH]; simpl; rewrite orb_true_iff, startsWith_iff.
  - split.
    + intros [[post H] | H]; [| discriminate]. now exists "", post.
    + intros [pre [post H]]. left. destruct pre; [now exists post | discriminate].
  - rewrite IH. split.
    + intros [[post H] | [pre [post H]]].
      * now exists "", post.
      * exists (String a pre), post. simpl. now rewrite H.
    + intros [pre [post H]]. destruct pre as [|c pre]; simpl in H.
      * left. now exists post.
      * right. injection H as _ H. now exists pre, post.
Qed.

Lemma includes_substring (s t : string) :
  JS.includes s t = true <-> substring t s.
Proof. apply includes_iff. Qed.

Lemma substring_trans (r t s : string) :
  substring r t -> substring t s -> substring r s.
Proof.
  intros [a [b ->]] [pre [post ->]].
  exists (pre ++ a), (b ++ post). now rewrite !append_assoc.
Qed.

Lemma substring_empty (t : string) : substring t "" -> t = "".
Proof.
  intros [pre [post H]]. destruct pre; [| discriminate].
  destruct t; [reflexivity | discriminate].
Qed.

Lemma fold_case_app (s t : string) :
  fold_case (s ++ t) = fold_case s ++ fold_case t.
Proof. induction s as [|a s IH]; simpl; [reflexivity | now rewrite IH]. Qed.

(** A split of the folded form comes from a split of the string. *)
Lemma fold_case_split (s a b : string) :
  fold_case s = a ++ b ->
  exists s1 s2, s = s1 ++ s2 /\ fold_case s1 = a /\ fold_case s2 = b.
Proof.
  revert s. induction a as [|c a IH]; intros s H; simpl in H.
  - now exists "", s.
  - destruct s as [|d s]; simpl in H; [discriminate |].
    injection H as Hc H. destruct (IH s H) as [s1 [s2 [-> [H1 H2]]]].
    exists (String d s1), s2. simpl. now rewrite Hc, H1, H2.
Qed.

(** A substring of the folded forms is a substring up to case. *)
Lemma substring_fold_iff (s q : string) :
  substring (fold_case q) (fold_case s) <-> contains_ignoring_case s q.
Proof.
  unfold substring, contains_ignoring_case. split.
  - intros [a [b H]].
    destruct (fold_case_split _ _ _ H) as [pre [rest [-> [Ha H']]]].
    destruct (fold_case_split _ _ _ H') as [mid [post [-> [Hm Hb]]]].
    now exists pre, mid, post.
  - intros [pre [mid [post [-> H]]]].
    exists (fold_case pre), (fold_case post).
    now rewrite !fold_case_app, H.
Qed.

(** *** The lower case of the script on Basic Latin *)

Lemma decode_utf8_ascii (c : ascii) (s : string) :
  (N_of_ascii c < 128)%N ->
  JS.decode_utf8 (String c s) = N_of_ascii c :: JS.decode_utf8 s.
Proof.
  intros H. cbn [JS.decode_utf8]. apply N.ltb_lt in H. now rewrite H.
Qed.

Lemma lower_from_cons (before : bool) (c : N) (rest : list N) :
  JS.lower_from before (c :: rest)
  = app (if (c =? JS.SIGMA)%N && before && negb (JS.followed_by_cased rest)
         then [JS.FINAL_SIGMA]
         else JS.lower_full c)
        (JS.lower_from (if JS.case_ignorable c then before else JS.cased c) rest).
Proof. reflexivity. Qed.

Lemma lower_full_ascii (n : N) :
  (n < 128)%N ->
  JS.lower_full n = [ if ((65 <=? n) && (n <=? 90))%N then (n + 32)%N else n ].
Proof.
  intros H. unfold JS.lower_full, JS.lower_simple.
  assert (E : (n =? 304)%N = false) by (apply N.eqb_neq; lia).
  apply N.ltb_lt in H. now rewrite E, H.
Qed.

Lemma encode_code_point_ascii (n : N) :
  (n < 128)%N -> JS.encode_code_point n = String (ascii_of_N n) "".
Proof.
  intros H. unfold JS.encode_code_point. apply N.ltb_lt in H. now rewrite H.
Qed.

Lemma lower_ascii_from (s : string) (before : bool) :
  is_ascii s ->
  JS.encode_utf8 (JS.lower_from before (JS.decode_utf8 s)) = fold_case s.
Proof.
  revert before. induction s as [|c s IH]; intros before H; [reflexivity |].
  destruct H as [Hc Hs].
  rewrite (decode_utf8_ascii c s Hc), lower_from_cons.
  assert (E : (N_of_ascii c =? JS.SIGMA)%N = false)
    by (apply N.eqb_neq; unfold JS.SIGMA; lia).
  rewrite E, (lower_full_ascii _ Hc). cbn [andb app JS.encode_utf8 fold_case].
  rewrite (IH _ Hs). unfold fold_unit.
  destruct ((65 <=? N_of_ascii c) && (N_of_ascii c <=? 90))%N eqn:U.
  - apply andb_true_iff in U as [_ U]. apply N.leb_le in U.
    rewrite encode_code_point_ascii by lia. reflexivity.
  - rewrite (encode_code_point_ascii _ Hc). simpl. now rewrite ascii_N_embedding.
Qed.

(** On a text of Basic Latin the lower case of the script makes the
    letters A to Z small and changes nothing else. *)
Lemma toLowerCase_ascii (s : string) :
  is_ascii s -> JS.toLowerCase s = fold_case s.
Proof. apply lower_ascii_from. Qed.

Lemma decode_utf8_cons (c : ascii) (s : string) :
  exists x l, JS.decode_utf8 (String c s) = x :: l.
Proof.
  cbn [JS.decode_utf8].
  repeat match goal with
         | |- context [if ?b then _ else _] => destruct b
         | |- context [match ?t with EmptyString => _ | String _ _ => _ end] =>
             destruct t
         end; eexists; eexists; reflexivity.
Qed.

Lemma encode_code_point_cons (c : N) :
  exists a t, JS.encode_code_point c = String a t.
Proof.
  unfold JS.encode_code_point.
  repeat match goal with
         | |- context [if ?b then _ else _] => destruct b
         end; eexists; eexists; reflexivity.
Qed.

(** The lower-case form of a string is empty exactly when the string is. *)
Lemma toLowerCase_truthy (s : string) :
  JS.truthy (JS.toLowerCase s) = JS.truthy s.
Proof.
  destruct s as [|c s]; [reflexivity |].
  unfold JS.toLowerCase. destruct (decode_utf8_cons c s) as [x [l ->]].
  rewrite lower_from_cons.
  assert (H : exists y ys,
             (if (x =? JS.SIGMA)%N && false && negb (JS.followed_by_cased l)
              then [JS.FINAL_SIGMA] else JS.lower_full x) = y :: ys).
  { rewrite andb_false_r. cbn [andb]. unfold JS.lower_full.
    destruct (x =? 304)%N; eexists; eexists; reflexivity. }
  destruct H as [y [ys ->]]. cbn [app JS.encode_utf8].
  destruct (encode_code_point_cons y) as [a [t ->]]. reflexivity.
Qed.

Lemma toLowerCase_empty (s : string) : JS.toLowerCase s = "" -> s = "".
Proof.
  intros H. apply truthy_false_iff. rewrite <- toLowerCase_truthy, H. reflexivity.
Qed.

Lemma occurs_includes (c : ascii) (s : string) :
  JS.includes s (String c "") = true <-> JS.occurs c s.
Proof.
  induction s as [|a s IH]; simpl.
  - split; [discriminate | tauto].
  - rewrite orb_true_iff, IH, andb_true_iff, Ascii.eqb_eq.
    destruct s; simpl; tauto.
Qed.

End StringFacts.

(* ===================================================================== *)
(** ** filteredInsights *)
(* ===================================================================== *)

Lemma matchesSearch_iff (this : Dashboard) (insight : Insight) :
  matchesSearch this insight = true <-> matchesSearch_spec this insight.
Proof.
  unfold matchesSearch, matchesSearch_spec.
  rewrite !orb_true_iff, negb_true_iff, truthy_false_iff, !includes_substring.
  tauto.
Qed.

Lemma matchesStatus_iff (this : Dashboard) (insight : Insight) :
  matchesStatus this insight = true <-> matchesStatus_spec this insight.
Proof.
  unfold matchesStatus, matchesStatus_spec.
  now rewrite orb_true_iff, negb_true_iff, truthy_false_iff, String.eqb_eq.
Qed.

Lemma matchesType_iff (this : Dashboard) (insight : Insight) :
  matchesType this insight = true <-> matchesType_spec this insight.
Proof.
  unfold matchesType, matchesType_spec.
  rewrite !orb_true_iff, !andb_true_iff, !negb_true_iff, truthy_false_iff,
    !String.eqb_eq.
  tauto.
Qed.

(** On texts of Basic Latin the search test of the code is containment
    of the query up to the case of the letters A to Z. *)
Lemma matchesSearch_spec_ascii (this : Dashboard) (insight : Insight) :
  is_ascii (searchQuery this) -> is_ascii (id insight) -> is_ascii (content insight) ->
  (matchesSearch_spec this insight <-> matchesSearch_ignoring_case this insight).
Proof.
  intros Hq Hi Hc. unfold matchesSearch_spec, matchesSearch_ignoring_case.
  rewrite !toLowerCase_ascii by assumption.
  now rewrite !substring_fold_iff.
Qed.

(** C1, amended: an insight of the base sequence is in [filteredInsights]
    exactly when it matches the search, the status filter and the type
    filter, where the search matches on an empty query or when the
    lower-case form of the query is a substring of the lower-case form of
    [id] or of [content] (on texts of Basic Latin: when [id] or [content]
    contains the query up to the case of letters), the status filter on an
    empty filter or on equality with [status], and the type filter on an
    empty filter, on 'static' with [isDynamic] false, or on 'dynamic' with
    [isDynamic] true. *)
Theorem filteredInsights_iff (this : Dashboard) (insight : Insight) :
  (In insight (filteredInsights this)
   <-> In insight (insights this)
       /\ matchesSearch_spec this insight
       /\ matchesStatus_spec this insight
       /\ matchesType_spec this insight)
  /\ (is_ascii (searchQuery this) -> is_ascii (id insight) ->
      is_ascii (content insight) ->
      (In insight (filteredInsights this)
       <-> In insight (insights this)
           /\ matchesSearch_ignoring_case this insight
           /\ matchesStatus_spec this insight
           /\ matchesType_spec this insight)).
Proof.
  assert (H : In insight (filteredInsights this)
              <-> In insight (insights this)
                  /\ matchesSearch_spec this insight
                  /\ matchesStatus_spec this insight
                  /\ matchesType_spec this insight).
  { unfold filteredInsights.
    rewrite filter_In, !andb_true_iff, matchesSearch_iff, matchesStatus_iff,
      matchesType_iff.
    tauto. }
  split; [exact H |].
  intros Hq Hi Hc. rewrite H, (matchesSearch_spec_ascii this insight Hq Hi Hc).
  tauto.
Qed.

(** C1 as first stated fails: the id of [insight_sigma] begins with the
    search query letter for letter, the status and type filters are empty,
    and the insight is not in [filteredInsights]. The capital sigma ends
    the query and becomes a final small sigma; inside the id it becomes
    the other small sigma. *)
Lemma search_misses_verbatim_substring :
  In insight_sigma (insights page_sigma)
  /\ searchQuery page_sigma <> ""
  /\ (exists post,
        id insight_sigma = (searchQuery page_sigma ++ post)%string)
  /\ contains_ignoring_case (id insight_sigma) (searchQuery page_sigma)
  /\ matchesStatus_spec page_sigma insight_sigma
  /\ matchesType_spec page_sigma insight_sigma
  /\ ~ In insight_sigma (filteredInsights page_sigma)
  /\ JS.toLowerCase (searchQuery page_sigma) = JS.encode_utf8 [948; 959; 962]%N
  /\ JS.toLowerCase (id insight_sigma) = JS.encode_utf8 [948; 959; 963; 945]%N.
Proof.
  split; [now left |].
  split; [vm_compute; discriminate |].
  split; [exists (JS.encode_utf8 [913]%N); vm_compute; reflexivity |].
  split; [exists "", delta_omicron_sigma, (JS.encode_utf8 [913]%N);
          split; vm_compute; reflexivity |].
  split; [now left |]. split; [now left |].
  split; [| split; vm_compute; reflexivity].
  assert (E : filteredInsights page_sigma = []) by (vm_compute; reflexivity).
  rewrite E. intros [].
Qed.

(** *** Filtering keeps the order of the base sequence *)

Section FilterSublist.

Context {A : Type}.

Lemma filter_sublist_of (f : A -> bool) (l : list A) :
  sublist (List.filter f l) l.
Proof.
  induction l as [|x l IH]; simpl.
  - constructor.
  - destruct (f x); [apply sublist_skip | apply sublist_cons]; exact IH.
Qed.

(** A stronger test keeps a subsequence of what a weaker test keeps. *)
Lemma filter_sublist_impl (f g : A -> bool) (l : list A) :
  (forall x, f x = true -> g x = true) ->
  sublist (List.filter f l) (List.filter g l).
Proof.
  intros Hfg. induction l as [|x l IH]; simpl.
  - constructor.
  - destruct (f x) eqn:Hf.
    + rewrite (Hfg x Hf). apply sublist_skip, IH.
    + destruct (g x); [apply sublist_cons |]; exact IH.
Qed.

Lemma filter_all (f : A -> bool) (l : list A) :
  (forall x, f x = true) -> List.filter f l = l.
Proof.
  intros Hf. induction l as [|x l IH]; simpl; [reflexivity |].
  now rewrite Hf, IH.
Qed.

End FilterSublist.

(** C5: [filteredInsights] is a subsequence of the base sequence (every
    returned insight is an insight of the base sequence, in the original
    relative order), and with the three filters empty it is the base
    sequence itself. *)
Theorem filteredInsights_subsequence (this : Dashboard) :
  sublist (filteredInsights this) (insights this)
  /\ (forall insight, In insight (filteredInsights this) -> In insight (insights this))
  /\ (searchQuery this = "" -> statusFilter this = "" -> typeFilter this = "" ->
      filteredInsights this = insights this).
Proof.
  split; [apply filter_sublist_of |]. split.
  - intros insight H. apply filter_In in H. tauto.
  - intros Hq Hs Ht. apply filter_all. intros x.
    unfold matchesSearch, matchesStatus, matchesType.
    now rewrite Hq, Hs, Ht.
Qed.

(** C10: for a fixed search query and type filter, the result under any
    status filter is a subsequence of the result under the empty status
    filter; likewise for the type filter with the search query and status
    filter fixed. *)
Theorem filteredInsights_narrowing (this : Dashboard) (f : string) :
  sublist (filteredInsights (with_statusFilter f this))
          (filteredInsights (with_statusFilter "" this))
  /\ sublist (filteredInsights (with_typeFilter f this))
             (filteredInsights (with_typeFilter "" this)).
Proof.
  split; unfold filteredInsights; simpl; apply filter_sublist_impl; intros x;
    unfold matchesSearch, matchesStatus, matchesType; simpl;
    rewrite !andb_true_iff; intros [[Hq Hs] Ht]; auto.
Qed.

(* ===================================================================== *)
(** ** stats *)
(* ===================================================================== *)

Lemma length_filter_count {A : Type} (p : A -> bool) (l : list A) :
  length (List.filter p l) = count p l.
Proof.
  induction l as [|x l IH]; simpl; [reflexivity |].
  destruct (p x); simpl; now rewrite IH.
Qed.

(** C4: [stats] counts over the base sequence: the total, the insights of
    status 'live', 'review' and 'retired', the dynamic ones and the ones
    with a call to action; it is the same under every filter state; and on
    a base sequence of a live static insight A without call to action and a
    retired dynamic insight B with one it is 2, 1, 0, 1, 1, 1. *)
Theorem stats_over_base_sequence :
  (forall this,
     stats this =
     {| total := length (insights this);
        live := count (fun i => String.eqb (status i) "live") (insights this);
        review := count (fun i => String.eqb (status i) "review") (insights this);
        dynamic := count isDynamic (insights this);
        withCta := count hasCta (insights this);
        retired := count (fun i => String.eqb (status i) "retired") (insights this) |})
  /\ (forall this q sf tf vm,
        stats {| searchQuery := q; statusFilter := sf; typeFilter := tf;
                 viewMode := vm; insights := insights this |} = stats this)
  /\ (forall this a b,
        insights this = [a; b] ->
        id a = "A" -> status a = "live" -> isDynamic a = false -> hasCta a = false ->
        id b = "B" -> status b = "retired" -> isDynamic b = true -> hasCta b = true ->
        stats this =
        {| total := 2; live := 1; review := 0; dynamic := 1; withCta := 1;
           retired := 1 |}).
Proof.
  split; [| split].
  - intros this. unfold stats. now rewrite !length_filter_count.
  - reflexivity.
  - intros this a b Hl _ Hsa Hda Hca _ Hsb Hdb Hcb.
    unfold stats. rewrite Hl. simpl. now rewrite Hsa, Hda, Hca, Hsb, Hdb, Hcb.
Qed.

(* ===================================================================== *)
(** ** exportToCSV *)
(* ===================================================================== *)

Section ExportFacts.

Local Open Scope string_scope.

Lemma length_app_string (s t : string) :
  String.length (s ++ t) = String.length s + String.length t.
Proof. induction s as [|a s IH]; simpl; [reflexivity | now rewrite IH]. Qed.

Lemma length_double_quotes (s : string) :
  String.length s <= String.length (double_quotes s).
Proof.
  induction s as [|a s IH]; simpl; [lia |].
  destruct (Ascii.eqb a JS.DQUOTE); simpl; lia.
Qed.

Lemma wrapped_neq (s : string) : wrapped s <> s.
Proof.
  intros H. apply (f_equal String.length) in H. unfold wrapped in H.
  simpl in H. rewrite length_app_string in H. simpl in H.
  pose proof (length_double_quotes s). lia.
Qed.

(** The two replacements of the code, one after the other, are one pass. *)
Lemma replace_g_on_one_line (s : string) :
  JS.replace_g JS.CR "" (JS.replace_g JS.LF " " s) = on_one_line s.
Proof.
  induction s as [|a s IH]; simpl; [reflexivity |].
  destruct (Ascii.eqb a JS.LF) eqn:Hlf; simpl.
  - now rewrite IH.
  - destruct (Ascii.eqb a JS.CR) eqn:Hcr; simpl; now rewrite IH.
Qed.

Lemma replace_g_double_quotes (s : string) :
  JS.replace_g JS.DQUOTE (dquote ++ dquote) s = double_quotes s.
Proof.
  induction s as [|a s IH]; [reflexivity |].
  cbn [JS.replace_g double_quotes].
  destruct (Ascii.eqb a JS.DQUOTE); rewrite IH; reflexivity.
Qed.

Lemma quoted_wrapped (s : string) : quoted s = wrapped s.
Proof. unfold quoted, wrapped. now rewrite replace_g_double_quotes. Qed.

Lemma needsQuoting_iff (s : string) : needsQuoting s = true <-> has_special s.
Proof.
  unfold needsQuoting, has_special, dquote, newline.
  rewrite !orb_true_iff, !occurs_includes. unfold JS.COMMA. tauto.
Qed.

Lemma csvField_special (s : string) :
  has_special s -> csvField (VString s) = VString (wrapped s).
Proof.
  intros H. apply needsQuoting_iff in H. simpl. now rewrite H, quoted_wrapped.
Qed.

Lemma csvField_plain (s : string) :
  ~ has_special s -> csvField (VString s) = VString s.
Proof.
  intros H. simpl. destruct (needsQuoting s) eqn:E; [| reflexivity].
  apply needsQuoting_iff in E. contradiction.
Qed.

(** Reading the row of an insight column by column gives its values in
    the order they were written. *)
Lemma get_csvRow_columns (insight : Insight) :
  map (get (csvRow insight)) columns = map snd (csvRow insight).
Proof. reflexivity. Qed.

(** On a non-empty filtered sequence the export completes, and its text is
    the header line and one line per filtered insight, joined by line
    feeds. *)
Lemma exportToCSV_nonempty (now : string) (this : Dashboard) :
  filteredInsights this <> [] ->
  exportToCSV now this =
  JS.Normal
    {| download := "smart_facts_export_" ++ JS.split_first "T"%char now ++ ".csv";
       type := "text/csv;charset=utf-8;";
       body := JS.join newline (csv_lines (filteredInsights this)) |}.
Proof.
  unfold exportToCSV, csv_lines.
  destruct (filteredInsights this) as [|i l]; [congruence |].
  intros _. cbn [map]. rewrite List.map_map. reflexivity.
Qed.

(** On an empty filtered sequence the read of the first row's keys throws. *)
Lemma exportToCSV_empty (now : string) (this : Dashboard) :
  filteredInsights this = [] ->
  exportToCSV now this =
  JS.Throw (JS.TypeError "Cannot convert undefined or null to object").
Proof. unfold exportToCSV. now intros ->. Qed.

End ExportFacts.

(** C3: a string value is written between double quotes, its own double
    quotes doubled, exactly when it holds a comma, a double quote or a line
    feed, and is written as it is otherwise; the header line is the column
    names joined by commas; the lines of the export are joined by one line
    feed each; and an insight whose content is [hello_content] and whose
    template keys are x and y gives the Content field [hello_field] and the
    Dynamic Variables field [x; y]. *)
Theorem csv_quoting_rule :
  (forall s, emitted (VString s) = wrapped s <-> has_special s)
  /\ (forall s, ~ has_special s -> emitted (VString s) = s)
  /\ (forall row,
        csvLine columns row
        = JS.join "," (map (fun header => emitted (get row header)) columns))
  /\ JS.join "," columns
     = "ID,Status,Priority,Type,Content,Dynamic Variables,CTA Text,CTA URL,Required Context,Requires Primary User,Requires Profile Complete,Has CTA"
  /\ (forall now this,
        filteredInsights this <> [] ->
        exists d,
          exportToCSV now this = JS.Normal d
          /\ body d = JS.join newline (csv_lines (filteredInsights this)))
  /\ (forall insight,
        content insight = hello_content ->
        templateKeys insight = Some ["x"; "y"] ->
        emitted (get (csvRow insight) "Content") = hello_field
        /\ emitted (get (csvRow insight) "Dynamic Variables") = "x; y").
Proof.
  repeat split.
  - intros H. destruct (needsQuoting s) eqn:E.
    + now apply needsQuoting_iff.
    + exfalso. unfold emitted in H. simpl in H. rewrite E in H. simpl in H.
      symmetry in H. now apply wrapped_neq in H.
  - intros H. unfold emitted. now rewrite csvField_special.
  - intros s H. unfold emitted. now rewrite csvField_plain.
  - intros now this H. rewrite (exportToCSV_nonempty now this H).
    eexists. split; reflexivity.
  - simpl. rewrite replace_g_on_one_line, H. reflexivity.
  - simpl. rewrite H0. reflexivity.
Qed.

(** C6: the row of an insight has the twelve columns in their fixed order,
    with Type 'Dynamic' or 'Static' after [isDynamic], Content on one line
    (line feeds to spaces, carriage returns dropped), Dynamic Variables and
    Required Context joined with '; ', the call-to-action text and URL
    empty without a [cta], the flags as 'Yes' or 'No', and an absent [cta],
    [templateKeys] or [requiredContext] read as empty; the export of a
    filtered sequence that holds the insight completes and has its line. *)
Theorem csvRow_fields (insight : Insight) :
  Object_keys (csvRow insight) = columns
  /\ map (get (csvRow insight)) columns =
     [ VString (id insight);
       VString (status insight);
       VNumber (priority insight);
       VString (if isDynamic insight then "Dynamic" else "Static");
       VString (on_one_line (content insight));
       VString (String.concat "; " (default [] (templateKeys insight)));
       VString (from_option text "" (cta insight));
       VString (from_option url "" (cta insight));
       VString (String.concat "; " (default [] (requiredContext insight)));
       VString (if requiresPrimaryUser insight then "Yes" else "No");
       VString (if requiresProfileComplete insight then "Yes" else "No");
       VString (if hasCta insight then "Yes" else "No") ]
  /\ csvLine columns (csvRow insight)
     = JS.join "," (map emitted (map (get (csvRow insight)) columns))
  /\ (forall now this,
        In insight (filteredInsights this) ->
        exists d,
          exportToCSV now this = JS.Normal d
          /\ body d = JS.join newline (csv_lines (filteredInsights this))
          /\ In (csvLine columns (csvRow insight)) (csv_lines (filteredInsights this))).
Proof.
  split; [reflexivity |]. split; [| split].
  - rewrite get_csvRow_columns. simpl. rewrite replace_g_on_one_line.
    destruct (templateKeys insight), (cta insight), (requiredContext insight);
      reflexivity.
  - reflexivity.
  - intros now this H.
    assert (Hne : filteredInsights this <> []) by (intros E; now rewrite E in H).
    rewrite (exportToCSV_nonempty now this Hne). eexists.
    split; [reflexivity |]. split; [reflexivity |].
    unfold csv_lines. right.
    apply (in_map (fun i => csvLine columns (csvRow i))). exact H.
Qed.

(** C2: the export of an empty filtered sequence triggers no download and
    throws a TypeError, at the read of the keys of the first row: with the
    built-in insight as base sequence and a search query that matches
    nothing, the filtered sequence is empty and the call throws. *)
Theorem exportToCSV_empty_throws (now : string) :
  filteredInsights (with_searchQuery "zzz" (smartFactsDashboard get_hardcoded_insights)) = []
  /\ exportToCSV now (with_searchQuery "zzz" (smartFactsDashboard get_hardcoded_insights))
     = JS.Throw (JS.TypeError "Cannot convert undefined or null to object")
  /\ forall d,
       exportToCSV now (with_searchQuery "zzz" (smartFactsDashboard get_hardcoded_insights))
       <> JS.Normal d.
Proof.
  assert (E : filteredInsights
                (with_searchQuery "zzz" (smartFactsDashboard get_hardcoded_insights)) = [])
    by (vm_compute; reflexivity).
  split; [exact E |]. rewrite (exportToCSV_empty now _ E).
  split; [reflexivity | discriminate].
Qed.

(** C9: two dashboards that differ in the view mode alone have the same
    filtered sequence, the same statistics and the same export. *)
Theorem viewMode_irrelevant
  (q sf tf : string) (l : list Insight) (m1 m2 : string) (now : string) :
  filteredInsights (mkDashboard q sf tf m1 l) = filteredInsights (mkDashboard q sf tf m2 l)
  /\ stats (mkDashboard q sf tf m1 l) = stats (mkDashboard q sf tf m2 l)
  /\ exportToCSV now (mkDashboard q sf tf m1 l) = exportToCSV now (mkDashboard q sf tf m2 l).
Proof. repeat split. Qed.

(* ===================================================================== *)
(** ** The resolver *)
(* ===================================================================== *)

Section ResolverFacts.

Variable env : Env.

(** Extraction gives the built-in sequence, or the empty sequence, or
    raises what a read raised. *)
Lemma extract_from_files_cases (codebase_path : string) :
  extract_from_files env codebase_path = Ok get_hardcoded_insights
  \/ extract_from_files env codebase_path = Ok []
  \/ exists e, extract_from_files env codebase_path = Raise e.
Proof.
  unfold extract_from_files.
  destruct (os_path_exists env _ && os_path_exists env _); [| now right; left].
  destruct (open_read env _) as [c1 | e1]; simpl; [| right; right; now exists e1].
  destruct (open_read env _) as [c2 | e2]; simpl; [now left |].
  right; right; now exists e2.
Qed.

(** The resolver step by step: the handler prints, and what that print
    raises is raised by the resolver. *)
Lemma resolver_unfold :
  extract_smart_facts_from_codebase env
  = match first_existing env (possible_paths env) with
    | None => Ok get_hardcoded_insights
    | Some p =>
        match extract_from_files env p with
        | Ok l => Ok l
        | Raise e =>
            match print env (error_line env e) with
            | Ok _ => Ok get_hardcoded_insights
            | Raise e' => Raise e'
            end
        end
    end.
Proof.
  unfold extract_smart_facts_from_codebase, try_except, bind.
  destruct (first_existing env (possible_paths env)) as [p |]; [| reflexivity].
  destruct (extract_from_files env p) as [l | e]; [reflexivity |].
  destruct (print env (error_line env e)); reflexivity.
Qed.

(** What the resolver returns is the built-in sequence or the empty
    sequence. *)
Lemma resolver_result (l : list Insight) :
  extract_smart_facts_from_codebase env = Ok l ->
  l = get_hardcoded_insights \/ l = [].
Proof.
  rewrite resolver_unfold.
  destruct (first_existing env (possible_paths env)) as [p |].
  - destruct (extract_from_files_cases p) as [H | [H | [e H]]]; rewrite H.
    + intros E. injection E as <-. now left.
    + intros E. injection E as <-. now right.
    + destruct (print env (error_line env e)); [| discriminate].
      intros E. injection E as <-. now left.
  - intros E. injection E as <-. now left.
Qed.

(** Without an existing location the result is the built-in sequence. *)
Lemma resolver_no_location :
  first_existing env (possible_paths env) = None ->
  extract_smart_facts_from_codebase env = Ok get_hardcoded_insights.
Proof. rewrite resolver_unfold. now intros ->. Qed.

(** An exception raised by the extraction is caught; when the print of
    the handler succeeds the built-in sequence is returned. *)
Lemma resolver_catches (p : string) (e : PyException) :
  first_existing env (possible_paths env) = Some p ->
  extract_from_files env p = Raise e ->
  print env (error_line env e) = Ok tt ->
  extract_smart_facts_from_codebase env = Ok get_hardcoded_insights.
Proof. rewrite resolver_unfold. now intros -> -> ->. Qed.

(** When the print of the handler raises, the resolver raises that. *)
Lemma resolver_handler_raises (p : string) (e e' : PyException) :
  first_existing env (possible_paths env) = Some p ->
  extract_from_files env p = Raise e ->
  print env (error_line env e) = Raise e' ->
  extract_smart_facts_from_codebase env = Raise e'.
Proof. rewrite resolver_unfold. now intros -> -> ->. Qed.

(** With both files present and readable the stub gives the built-in
    sequence. *)
Lemma resolver_files_present (p c1 c2 : string) :
  first_existing env (possible_paths env) = Some p ->
  os_path_exists env (os_path_join p definitions_rel) = true ->
  os_path_exists env (os_path_join p templates_rel) = true ->
  open_read env (os_path_join p definitions_rel) = Ok c1 ->
  open_read env (os_path_join p templates_rel) = Ok c2 ->
  extract_smart_facts_from_codebase env = Ok get_hardcoded_insights.
Proof.
  rewrite resolver_unfold. unfold extract_from_files.
  now intros -> -> -> -> ->.
Qed.

(** A found location without one of the two files gives the empty
    sequence. *)
Lemma resolver_files_missing (p : string) :
  first_existing env (possible_paths env) = Some p ->
  os_path_exists env (os_path_join p definitions_rel)
  && os_path_exists env (os_path_join p templates_rel) = false ->
  extract_smart_facts_from_codebase env = Ok [].
Proof.
  rewrite resolver_unfold. unfold extract_from_files.
  now intros -> ->.
Qed.

End ResolverFacts.

(** Nothing exists: the built-in sequence. *)
Example resolver_env_nothing :
  extract_smart_facts_from_codebase env_nothing = Ok get_hardcoded_insights.
Proof. apply resolver_no_location. reflexivity. Qed.

(** Both files exist and the read of the first raises [PermissionError]:
    the exception is caught, its line printed and the built-in sequence
    returned. *)
Example resolver_env_unreadable :
  extract_from_files env_unreadable "/srv/code" = Raise PermissionError
  /\ extract_smart_facts_from_codebase env_unreadable = Ok get_hardcoded_insights.
Proof.
  split; [reflexivity |].
  apply (resolver_catches _ "/srv/code" PermissionError); reflexivity.
Qed.

(** The same with a standard output that refuses the line of the handler:
    the resolver raises what the print raised. *)
Example resolver_env_print_fails :
  extract_smart_facts_from_codebase env_print_fails = Raise UnicodeEncodeError.
Proof.
  apply (resolver_handler_raises _ "/srv/code" PermissionError); reflexivity.
Qed.

(** C7: a location is found ([../hometap] exists) and it holds neither the
    definitions file nor the templates file; the resolver returns the empty
    sequence, which is not the built-in sequence. *)
Theorem resolver_missing_files_gives_empty :
  first_existing env_missing_files (possible_paths env_missing_files) = Some "../hometap"
  /\ os_path_exists env_missing_files (os_path_join "../hometap" definitions_rel) = false
  /\ extract_smart_facts_from_codebase env_missing_files = Ok []
  /\ extract_smart_facts_from_codebase env_missing_files <> Ok get_hardcoded_insights.
Proof.
  assert (E : extract_smart_facts_from_codebase env_missing_files = Ok [])
    by (apply (resolver_files_missing _ "../hometap"); reflexivity).
  split; [reflexivity |]. split; [reflexivity |]. split; [exact E |].
  rewrite E. discriminate.
Qed.

(** C8: with the override set to an existing location that holds the
    definitions file and no templates file, the resolver returns without
    raising, and what it returns is the empty sequence: the insight of the
    built-in sequence is not in it. *)
Theorem resolver_result_below_fallback :
  exists l,
    extract_smart_facts_from_codebase env_missing_templates = Ok l
    /\ l = []
    /\ ~ sublist get_hardcoded_insights l
    /\ exists insight, In insight get_hardcoded_insights /\ ~ In insight l.
Proof.
  exists []. split; [| split; [reflexivity | split]].
  - apply (resolver_files_missing _ "/srv/code"); reflexivity.
  - intros H. inversion H.
  - eexists. split; [left; reflexivity | intros []].
Qed.

(* ===================================================================== *)
(** ** The theorems at sample inputs *)
(* ===================================================================== *)

(** The search BETA with the type filter 'dynamic' keeps insight B, whose
    texts are Basic Latin. *)
Lemma filteredInsights_iff_witness :
  In insight_B
     (filteredInsights
        (with_typeFilter "dynamic"
           (with_searchQuery "BETA" (smartFactsDashboard [insight_A; insight_B])))).
Proof.
  apply (proj2 (filteredInsights_iff
                  (with_typeFilter "dynamic"
                     (with_searchQuery "BETA" (smartFactsDashboard [insight_A; insight_B])))
                  insight_B)).
  - simpl. repeat split; vm_compute; reflexivity.
  - simpl. repeat split; vm_compute; reflexivity.
  - simpl. repeat split; vm_compute; reflexivity.
  - split; [right; left; reflexivity |].
    split; [right; right; exists "", "beta", " {x}"; split; reflexivity |].
    split; [left; reflexivity | right; right; split; reflexivity].
Defined.

(** With the initial filter state the two sample insights are both kept. *)
Lemma filteredInsights_subsequence_witness :
  sublist (filteredInsights (smartFactsDashboard [insight_A; insight_B]))
          [insight_A; insight_B]
  /\ In insight_A [insight_A; insight_B]
  /\ filteredInsights (smartFactsDashboard [insight_A; insight_B])
     = [insight_A; insight_B].
Proof.
  destruct (filteredInsights_subsequence (smartFactsDashboard [insight_A; insight_B]))
    as [H1 [H2 H3]].
  split; [exact H1 |]. split.
  - apply (H2 insight_A). vm_compute. left. reflexivity.
  - apply H3; reflexivity.
Defined.

(** The statistics of the two sample insights. *)
Lemma stats_over_base_sequence_witness :
  stats (smartFactsDashboard [insight_A; insight_B])
  = {| total := 2; live := 1; review := 0; dynamic := 1; withCta := 1; retired := 1 |}.
Proof.
  destruct stats_over_base_sequence as [_ [_ H]].
  apply (H (smartFactsDashboard [insight_A; insight_B]) insight_A insight_B);
    reflexivity.
Defined.

(** The quoting rule on a value with a comma, on a value without special
    characters, and on the sample insight. *)
Lemma csv_quoting_rule_witness :
  emitted (VString "a,b") = wrapped "a,b"
  /\ emitted (VString "ab") = "ab"
  /\ (exists d,
        exportToCSV "2024-05-06T07:08:09.000Z" (smartFactsDashboard [insight_hello])
        = JS.Normal d
        /\ body d = JS.join newline (csv_lines [insight_hello]))
  /\ emitted (get (csvRow insight_hello) "Content") = hello_field
  /\ emitted (get (csvRow insight_hello) "Dynamic Variables") = "x; y".
Proof.
  destruct csv_quoting_rule as [H1 [H2 [_ [_ [H5 H6]]]]].
  split; [apply (H1 "a,b"); left; right; left; reflexivity |].
  split.
  - apply (H2 "ab"). vm_compute. intros [[H | [H | []]] | [[H | [H | []]] | [H | [H | []]]]];
      discriminate H.
  - split.
    + apply (H5 "2024-05-06T07:08:09.000Z" (smartFactsDashboard [insight_hello])).
      vm_compute. discriminate.
    + apply (H6 insight_hello); reflexivity.
Defined.

(** The export of the two sample insights has the line of insight B. *)
Lemma csvRow_fields_witness :
  exists d,
    exportToCSV "2024-05-06T07:08:09.000Z" (smartFactsDashboard [insight_A; insight_B])
    = JS.Normal d
    /\ body d
       = JS.join newline
           (csv_lines (filteredInsights (smartFactsDashboard [insight_A; insight_B])))
    /\ In (csvLine columns (csvRow insight_B))
          (csv_lines (filteredInsights (smartFactsDashboard [insight_A; insight_B]))).
Proof.
  destruct (csvRow_fields insight_B) as [_ [_ [_ H]]].
  apply (H "2024-05-06T07:08:09.000Z" (smartFactsDashboard [insight_A; insight_B])).
  vm_compute. right. left. reflexivity.
Defined.

(* ===================================================================== *)
(** ** The resolver on every environment *)
(* ===================================================================== *)

Lemma extract_from_files_guarded (env : Env) (p : string) :
  (forall e, print env (error_line env e) = Ok tt) ->
  match extract_from_files env p with
  | Ok l => Ok l
  | Raise e =>
      match print env (error_line env e) with
      | Ok _ => Ok get_hardcoded_insights
      | Raise e' => Raise e'
      end
  end
  = Ok (if os_path_exists env (os_path_join p definitions_rel)
           && os_path_exists env (os_path_join p templates_rel)
        then get_hardcoded_insights
        else []).
Proof.
  intros Hp. unfold extract_from_files.
  destruct (os_path_exists env _ && os_path_exists env _); [| reflexivity].
  destruct (open_read env _) as [c1 | e1]; simpl; [| now rewrite Hp].
  destruct (open_read env _) as [c2 | e2]; simpl; [reflexivity | now rewrite Hp].
Qed.

Lemma resolver_resolved (env : Env) :
  (forall e, print env (error_line env e) = Ok tt) ->
  extract_smart_facts_from_codebase env = Ok (resolved env).
Proof.
  intros Hp. rewrite resolver_unfold. unfold resolved.
  destruct (first_existing env (possible_paths env)) as [p |]; [| reflexivity].
  now apply extract_from_files_guarded.
Qed.

(** X1: When the print of the handler does not raise, the resolver returns:
    the empty sequence when the location it found lacks one of the two
    files, the built-in sequence in every other case, also when a read
    raised. The resolver raises only what that print raised, after a read
    of a found location raised; and what it returns is always the built-in
    sequence or the empty sequence. *)
Theorem resolver_outcome (env : Env) :
  ((forall e, print env (error_line env e) = Ok tt) ->
   extract_smart_facts_from_codebase env
   = Ok (match first_existing env (possible_paths env) with
         | Some p =>
             if os_path_exists env (os_path_join p definitions_rel)
                && os_path_exists env (os_path_join p templates_rel)
             then get_hardcoded_insights
             else []
         | None => get_hardcoded_insights
         end))
  /\ (forall e',
        extract_smart_facts_from_codebase env = Raise e' ->
        exists p e,
          first_existing env (possible_paths env) = Some p
          /\ extract_from_files env p = Raise e
          /\ print env (error_line env e) = Raise e')
  /\ (forall l,
        extract_smart_facts_from_codebase env = Ok l ->
        l = get_hardcoded_insights \/ l = []).
Proof.
  split; [apply resolver_resolved |]. split; [| apply resolver_result].
  intros e'. rewrite resolver_unfold.
  destruct (first_existing env (possible_paths env)) as [p |]; [| discriminate].
  destruct (extract_from_files env p) as [l | e] eqn:E; [discriminate |].
  destruct (print env (error_line env e)) as [u | e''] eqn:P; [discriminate |].
  intros H. injection H as ->. now exists p, e.
Qed.

Lemma first_existing_ext (env1 env2 : Env) (paths : list (option string)) :
  (forall p, os_path_exists env1 p = os_path_exists env2 p) ->
  first_existing env1 paths = first_existing env2 paths.
Proof.
  intros H. induction paths as [| [q |] paths IH]; simpl; [reflexivity | | exact IH].
  now rewrite H, IH.
Qed.

(** X2: The text of the files has no influence on the resolver: two
    environments that differ only in the text of the files they read give
    the same result, be it a sequence or an exception. *)
Theorem resolver_ignores_file_text
  (get : string -> option string) (exists_ : string -> bool)
  (read1 read2 : string -> Result string)
  (pr : string -> Result unit) (str : PyException -> string)
  (wr : string -> string -> Result unit) :
  same_failures read1 read2 ->
  extract_smart_facts_from_codebase
    {| environ_get := get; os_path_exists := exists_; open_read := read1;
       print := pr; exception_str := str; open_write := wr |}
  = extract_smart_facts_from_codebase
      {| environ_get := get; os_path_exists := exists_; open_read := read2;
         print := pr; exception_str := str; open_write := wr |}.
Proof.
  intros H.
  set (env1 := {| environ_get := get; os_path_exists := exists_; open_read := read1;
                  print := pr; exception_str := str; open_write := wr |}).
  set (env2 := {| environ_get := get; os_path_exists := exists_; open_read := read2;
                  print := pr; exception_str := str; open_write := wr |}).
  rewrite !resolver_unfold.
  change (possible_paths env2) with (possible_paths env1).
  rewrite (first_existing_ext env2 env1 (possible_paths env1)) by reflexivity.
  destruct (first_existing _ _) as [p |]; [| reflexivity].
  unfold extract_from_files, error_line. simpl.
  destruct (exists_ _ && exists_ _); [| reflexivity].
  pose proof (H (os_path_join p definitions_rel)) as H1.
  pose proof (H (os_path_join p templates_rel)) as H2.
  destruct (read1 (os_path_join p definitions_rel)),
           (read2 (os_path_join p definitions_rel)); try contradiction; simpl.
  - destruct (read1 (os_path_join p templates_rel)),
             (read2 (os_path_join p templates_rel)); try contradiction; simpl;
      [reflexivity | now subst].
  - now subst.
Qed.

Lemma first_existing_Some (env : Env) (paths : list (option string)) (p : string) :
  first_existing env paths = Some p ->
  In (Some p) paths /\ p <> "" /\ os_path_exists env p = true.
Proof.
  induction paths as [| [q |] paths IH]; simpl; [discriminate | |].
  - destruct (str_bool q && os_path_exists env q) eqn:E.
    + intros H. injection H as ->. apply andb_true_iff in E as [Eq Ee].
      split; [now left |]. split; [| exact Ee].
      intros ->. discriminate Eq.
    + intros H. destruct (IH H) as [H1 H2]. split; [now right | exact H2].
  - intros H. destruct (IH H) as [H1 H2]. split; [now right | exact H2].
Qed.

Lemma first_existing_None (env : Env) (paths : list (option string)) :
  first_existing env paths = None <->
  forall p, In (Some p) paths -> p = "" \/ os_path_exists env p = false.
Proof.
  induction paths as [| [q |] paths IH]; simpl.
  - split; [intros _ p [] | reflexivity].
  - destruct (str_bool q && os_path_exists env q) eqn:E.
    + split; [discriminate |]. intros H.
      destruct (H q (or_introl eq_refl)) as [-> | Hq].
      * discriminate E.
      * rewrite Hq, andb_false_r in E. discriminate E.
    + rewrite IH. split.
      * intros H p [Hp | Hp]; [| now apply H].
        injection Hp as <-. apply andb_false_iff in E as [E | E]; [left | now right].
        now apply truthy_false_iff.
      * intros H p Hp. apply H. now right.
  - rewrite IH. split.
    + intros H p [Hp | Hp]; [discriminate | now apply H].
    + intros H p Hp. apply H. now right.
Qed.

(** X3: The location the resolver uses is not empty, exists, and is the
    override or one of the three fixed locations; a non-empty override
    that exists wins over them; and no location is used exactly when the
    override and the three fixed locations are each empty or missing. *)
Theorem resolver_location (env : Env) :
  (forall p,
     first_existing env (possible_paths env) = Some p ->
     p <> "" /\ os_path_exists env p = true
     /\ (environ_get env "CODEBASE_PATH" = Some p \/ In p fixed_paths))
  /\ (forall o,
        environ_get env "CODEBASE_PATH" = Some o ->
        o <> "" -> os_path_exists env o = true ->
        first_existing env (possible_paths env) = Some o)
  /\ (first_existing env (possible_paths env) = None <->
      (forall o, environ_get env "CODEBASE_PATH" = Some o ->
                 o = "" \/ os_path_exists env o = false)
      /\ (forall p, In p fixed_paths -> os_path_exists env p = false)).
Proof.
  split; [| split].
  - intros p H. apply first_existing_Some in H as [Hin [Hne He]].
    split; [exact Hne |]. split; [exact He |].
    unfold possible_paths, fixed_paths in *. simpl in *.
    destruct Hin as [H | [H | [H | [H | []]]]]; [now left | right ..];
      injection H as <-; tauto.
  - intros o Ho Hne He. unfold possible_paths. simpl. rewrite Ho, He.
    destruct o; [congruence | reflexivity].
  - rewrite first_existing_None. unfold possible_paths, fixed_paths. simpl. split.
    + intros H. split.
      * intros o Ho. apply H. left. now rewrite Ho.
      * intros p [<- | [<- | [<- | []]]].
        -- destruct (H "../hometap") as [E | E]; [tauto | discriminate E | exact E].
        -- destruct (H "../../hometap") as [E | E]; [tauto | discriminate E | exact E].
        -- destruct (H "/tmp/codebase") as [E | E]; [tauto | discriminate E | exact E].
    + intros [H1 H2] p [Hp | [Hp | [Hp | [Hp | []]]]].
      * now apply H1.
      * injection Hp as <-. right. apply H2. tauto.
      * injection Hp as <-. right. apply H2. tauto.
      * injection Hp as <-. right. apply H2. tauto.
Qed.

(* ===================================================================== *)
(** ** More on filteredInsights and stats *)
(* ===================================================================== *)

Section FilterFacts.

Context {A : Type}.

Lemma filter_twice (f : A -> bool) (l : list A) :
  List.filter f (List.filter f l) = List.filter f l.
Proof.
  induction l as [|x l IH]; simpl; [reflexivity |].
  destruct (f x) eqn:E; simpl; [rewrite E, IH |]; auto.
Qed.

Lemma filter_none (f : A -> bool) (l : list A) :
  (forall x, In x l -> f x = false) -> List.filter f l = [].
Proof.
  induction l as [|x l IH]; simpl; intros H; [reflexivity |].
  rewrite (H x (or_introl eq_refl)). apply IH. intros y Hy. apply H. now right.
Qed.

Lemma length_filter_le (f : A -> bool) (l : list A) :
  length (List.filter f l) <= length l.
Proof.
  induction l as [|x l IH]; simpl; [lia |]. destruct (f x); simpl; lia.
Qed.

(** The elements kept by [f] split into those kept by [f] and [g] and
    those kept by [f] and not [g]. *)
Lemma length_filter_split (f g : A -> bool) (l : list A) :
  length (List.filter (fun x => f x && g x) l)
  + length (List.filter (fun x => f x && negb (g x)) l)
  = length (List.filter f l).
Proof.
  induction l as [|x l IH]; simpl; [reflexivity |].
  destruct (f x), (g x); simpl; lia.
Qed.

End FilterFacts.

(** X4: Filtering an already filtered sequence with the same filter state
    changes nothing. *)
Theorem filteredInsights_idempotent (this : Dashboard) :
  filteredInsights
    {| searchQuery := searchQuery this; statusFilter := statusFilter this;
       typeFilter := typeFilter this; viewMode := viewMode this;
       insights := filteredInsights this |}
  = filteredInsights this.
Proof. unfold filteredInsights. simpl. apply filter_twice. Qed.

(** X5: On two base sequences put end to end, the filtered sequence is the
    two filtered sequences put end to end, and every counter of [stats] is
    the sum of the two counters. *)
Theorem concatenation (q sf tf vm : string) (l1 l2 : list Insight) :
  filteredInsights (mkDashboard q sf tf vm (l1 ++ l2))
  = filteredInsights (mkDashboard q sf tf vm l1)
    ++ filteredInsights (mkDashboard q sf tf vm l2)
  /\ total (stats (mkDashboard q sf tf vm (l1 ++ l2)))
     = total (stats (mkDashboard q sf tf vm l1)) + total (stats (mkDashboard q sf tf vm l2))
  /\ live (stats (mkDashboard q sf tf vm (l1 ++ l2)))
     = live (stats (mkDashboard q sf tf vm l1)) + live (stats (mkDashboard q sf tf vm l2))
  /\ review (stats (mkDashboard q sf tf vm (l1 ++ l2)))
     = review (stats (mkDashboard q sf tf vm l1)) + review (stats (mkDashboard q sf tf vm l2))
  /\ dynamic (stats (mkDashboard q sf tf vm (l1 ++ l2)))
     = dynamic (stats (mkDashboard q sf tf vm l1)) + dynamic (stats (mkDashboard q sf tf vm l2))
  /\ withCta (stats (mkDashboard q sf tf vm (l1 ++ l2)))
     = withCta (stats (mkDashboard q sf tf vm l1)) + withCta (stats (mkDashboard q sf tf vm l2))
  /\ retired (stats (mkDashboard q sf tf vm (l1 ++ l2)))
     = retired (stats (mkDashboard q sf tf vm l1)) + retired (stats (mkDashboard q sf tf vm l2)).
Proof.
  unfold filteredInsights, stats. simpl.
  rewrite !List.filter_app, !List.length_app. repeat split; reflexivity.
Qed.

(** X6: For a fixed search query and status filter, the insights shown under
    'static' and those shown under 'dynamic' are together as many as those
    shown without a type filter, and none is shown under both. *)
Theorem type_filter_partition (this : Dashboard) :
  length (filteredInsights (with_typeFilter "static" this))
  + length (filteredInsights (with_typeFilter "dynamic" this))
  = length (filteredInsights (with_typeFilter "" this))
  /\ forall insight,
       ~ (In insight (filteredInsights (with_typeFilter "static" this))
          /\ In insight (filteredInsights (with_typeFilter "dynamic" this))).
Proof.
  split.
  - unfold filteredInsights. simpl.
    rewrite <- (length_filter_split
                  (fun insight =>
                     matchesSearch (with_typeFilter "" this) insight
                     && matchesStatus (with_typeFilter "" this) insight
                     && matchesType (with_typeFilter "" this) insight)
                  isDynamic).
    rewrite Nat.add_comm. f_equal; f_equal; apply List.filter_ext; intros i;
      unfold matchesSearch, matchesStatus, matchesType; simpl;
      destruct (isDynamic i); simpl; now rewrite ?andb_true_r, ?andb_false_r.
  - intros insight [H1 H2]. unfold filteredInsights in *.
    apply filter_In in H1 as [_ H1]. apply filter_In in H2 as [_ H2].
    apply andb_true_iff in H1 as [_ H1]. apply andb_true_iff in H2 as [_ H2].
    unfold matchesType in *. simpl in *. destruct (isDynamic insight); discriminate.
Qed.

(** X7: A type filter other than the empty string, 'static' and 'dynamic'
    shows nothing, and so does a non-empty status filter that is the
    status of no insight of the base sequence. *)
Theorem unmatched_filter_shows_nothing (this : Dashboard) :
  (typeFilter this <> "" -> typeFilter this <> "static" ->
   typeFilter this <> "dynamic" -> filteredInsights this = [])
  /\ (statusFilter this <> "" ->
      (forall insight, In insight (insights this) -> status insight <> statusFilter this) ->
      filteredInsights this = []).
Proof.
  split.
  - intros H0 H1 H2. apply filter_none. intros x _.
    assert (E : matchesType this x = false).
    { destruct (matchesType this x) eqn:E; [| reflexivity].
      apply matchesType_iff in E. unfold matchesType_spec in E. tauto. }
    rewrite E. apply andb_false_r.
  - intros H0 H. apply filter_none. intros x Hx.
    assert (E : matchesStatus this x = false).
    { destruct (matchesStatus this x) eqn:E; [| reflexivity].
      apply matchesStatus_iff in E. destruct E as [E | E]; [tauto |].
      now apply H in Hx. }
    rewrite E, andb_false_r. reflexivity.
Qed.

(** X8: Two search queries with the same lower-case form show the same
    insights. *)
Theorem search_ignores_query_case (this : Dashboard) (q1 q2 : string) :
  JS.toLowerCase q1 = JS.toLowerCase q2 ->
  filteredInsights (with_searchQuery q1 this)
  = filteredInsights (with_searchQuery q2 this).
Proof.
  intros H. unfold filteredInsights. simpl. apply List.filter_ext. intros i.
  unfold matchesSearch, matchesStatus, matchesType. simpl.
  rewrite <- (toLowerCase_truthy q1), <- (toLowerCase_truthy q2), H.
  reflexivity.
Qed.

(** X9: Lengthening the search query only removes insights, as far as the
    lower-case forms go: when the lower-case form of a query is a substring
    of the lower-case form of a second query, what the second query shows
    is a subsequence of what the first one shows. *)
Theorem search_narrowing (this : Dashboard) (q q' : string) :
  substring (JS.toLowerCase q) (JS.toLowerCase q') ->
  sublist (filteredInsights (with_searchQuery q' this))
          (filteredInsights (with_searchQuery q this)).
Proof.
  intros Hq. unfold filteredInsights. simpl. apply filter_sublist_impl. intros i.
  rewrite !andb_true_iff. intros [[Hs Hst] Ht]. split; [split |]; [| exact Hst | exact Ht].
  apply matchesSearch_iff. apply matchesSearch_iff in Hs.
  unfold matchesSearch_spec in *.
  change (searchQuery (with_searchQuery q' this)) with q' in Hs.
  change (searchQuery (with_searchQuery q this)) with q.
  destruct Hs as [-> | [Hs | Hs]].
  - left. apply toLowerCase_empty. apply substring_empty. exact Hq.
  - right; left. exact (substring_trans _ _ _ Hq Hs).
  - right; right. exact (substring_trans _ _ _ Hq Hs).
Qed.

(** X10: With no search query, each counter of [stats] is the number of
    insights shown under the matching filter: Live, Under Review and
    Retired under that status, Dynamic under the type 'dynamic', and the
    total under no filter. *)
Theorem counters_match_filters (this : Dashboard) (vm : string) :
  length (filteredInsights (mkDashboard "" "live" "" vm (insights this)))
  = live (stats this)
  /\ length (filteredInsights (mkDashboard "" "review" "" vm (insights this)))
     = review (stats this)
  /\ length (filteredInsights (mkDashboard "" "retired" "" vm (insights this)))
     = retired (stats this)
  /\ length (filteredInsights (mkDashboard "" "" "dynamic" vm (insights this)))
     = dynamic (stats this)
  /\ length (filteredInsights (mkDashboard "" "" "" vm (insights this)))
     = total (stats this).
Proof.
  unfold filteredInsights, stats. simpl.
  repeat split; f_equal; try (apply List.filter_ext; intros i);
    unfold matchesSearch, matchesStatus, matchesType; simpl;
    rewrite ?andb_true_r; try reflexivity.
  apply filter_all. reflexivity.
Qed.

Lemma status_counts_le (l : list Insight) :
  count (fun i => String.eqb (status i) "live") l
  + count (fun i => String.eqb (status i) "review") l
  + count (fun i => String.eqb (status i) "retired") l
  <= length l.
Proof.
  induction l as [|x l IH]; simpl; [lia |].
  destruct (String.eqb (status x) "live") eqn:E1.
  - apply String.eqb_eq in E1. rewrite E1. simpl. lia.
  - destruct (String.eqb (status x) "review") eqn:E2.
    + apply String.eqb_eq in E2. rewrite E2. simpl. lia.
    + destruct (String.eqb (status x) "retired"); simpl; lia.
Qed.

(** X11: The counters are bounded by the total: the three status counters
    together, the dynamic counter, the call-to-action counter, and the
    number of insights shown under any filter state. *)
Theorem stats_bounds (this : Dashboard) :
  live (stats this) + review (stats this) + retired (stats this) <= total (stats this)
  /\ dynamic (stats this) <= total (stats this)
  /\ withCta (stats this) <= total (stats this)
  /\ length (filteredInsights this) <= total (stats this).
Proof.
  unfold stats, filteredInsights. simpl. repeat split; try apply length_filter_le.
  rewrite !length_filter_count. apply status_counts_le.
Qed.

(* ===================================================================== *)
(** ** More on exportToCSV *)
(* ===================================================================== *)

Section ExportMore.

Local Open Scope string_scope.

Lemma append_inj_tail (s1 s2 t : string) : s1 ++ t = s2 ++ t -> s1 = s2.
Proof.
  revert s2. induction s1 as [|a s1 IH]; intros [|b s2] H; simpl in H.
  - reflexivity.
  - apply (f_equal String.length) in H. simpl in H.
    rewrite length_app_string in H. lia.
  - apply (f_equal String.length) in H. simpl in H.
    rewrite length_app_string in H. lia.
  - injection H as -> H. now rewrite (IH _ H).
Qed.

Lemma double_quotes_inj (s1 s2 : string) :
  double_quotes s1 = double_quotes s2 -> s1 = s2.
Proof.
  revert s2. induction s1 as [|a s1 IH]; intros [|b s2]; simpl.
  - reflexivity.
  - destruct (Ascii.eqb b JS.DQUOTE); discriminate.
  - destruct (Ascii.eqb a JS.DQUOTE); discriminate.
  - destruct (Ascii.eqb a JS.DQUOTE) eqn:Ea, (Ascii.eqb b JS.DQUOTE) eqn:Eb; intros H.
    + apply Ascii.eqb_eq in Ea, Eb. subst. injection H as H. now rewrite (IH _ H).
    + injection H as <- H. now rewrite Ascii.eqb_refl in Eb.
    + injection H as -> H. now rewrite Ascii.eqb_refl in Ea.
    + injection H as -> H. now rewrite (IH _ H).
Qed.

Lemma emitted_cases (s : string) :
  (has_special s /\ emitted (VString s) = wrapped s)
  \/ (~ has_special s /\ emitted (VString s) = s).
Proof.
  unfold emitted. destruct (needsQuoting s) eqn:E.
  - left. apply needsQuoting_iff in E. split; [exact E |].
    now rewrite csvField_special.
  - right. assert (H : ~ has_special s).
    { intros H. apply needsQuoting_iff in H. congruence. }
    split; [exact H |]. now rewrite csvField_plain.
Qed.

Lemma wrapped_has_special (s : string) : has_special (wrapped s).
Proof. right; left. unfold wrapped. simpl. now left. Qed.

Lemma on_one_line_clean (s : string) :
  ~ JS.occurs JS.LF (on_one_line s) /\ ~ JS.occurs JS.CR (on_one_line s).
Proof.
  induction s as [|a s [IH1 IH2]]; simpl; [tauto |].
  destruct (Ascii.eqb a JS.LF) eqn:E1; simpl.
  - split; intros [H | H]; try discriminate H; tauto.
  - destruct (Ascii.eqb a JS.CR) eqn:E2; simpl; [tauto |].
    apply Ascii.eqb_neq in E1, E2. tauto.
Qed.

Lemma split_first_before (sep : ascii) (a b : string) :
  ~ JS.occurs sep a -> JS.split_first sep (a ++ String sep b) = a.
Proof.
  induction a as [|c a IH]; simpl; intros H.
  - now rewrite Ascii.eqb_refl.
  - destruct (Ascii.eqb c sep) eqn:E.
    + apply Ascii.eqb_eq in E. tauto.
    + rewrite IH; tauto.
Qed.

Lemma split_first_absent (sep : ascii) (a : string) :
  ~ JS.occurs sep a -> JS.split_first sep a = a.
Proof.
  induction a as [|c a IH]; simpl; intros H; [reflexivity |].
  destruct (Ascii.eqb c sep) eqn:E.
  - apply Ascii.eqb_eq in E. tauto.
  - rewrite IH; tauto.
Qed.

Lemma filteredInsights_initial (l : list Insight) :
  filteredInsights (smartFactsDashboard l) = l.
Proof. unfold filteredInsights. simpl. apply filter_all. reflexivity. Qed.

End ExportMore.

(** X12: Two different string values are never written as the same field. *)
Theorem emitted_injective (s1 s2 : string) :
  emitted (VString s1) = emitted (VString s2) -> s1 = s2.
Proof.
  destruct (emitted_cases s1) as [[H1 ->] | [H1 ->]],
           (emitted_cases s2) as [[H2 ->] | [H2 ->]]; intros H.
  - unfold wrapped in H. injection H as H.
    apply append_inj_tail in H. now apply double_quotes_inj.
  - exfalso. apply H2. rewrite <- H. apply wrapped_has_special.
  - exfalso. apply H1. rewrite H. apply wrapped_has_special.
  - exact H.
Qed.

(** X13: The Content value of a row holds no line feed and no carriage
    return, whatever the content of the insight. *)
Theorem content_cell_on_one_line (insight : Insight) :
  exists c,
    get (csvRow insight) "Content" = VString c
    /\ ~ JS.occurs JS.LF c /\ ~ JS.occurs JS.CR c.
Proof.
  exists (on_one_line (content insight)). split.
  - simpl. now rewrite replace_g_on_one_line.
  - apply on_one_line_clean.
Qed.

(** X14: The export throws exactly in the states in which the page shows its
    empty state, and triggers a download in all the others. *)
Theorem export_throws_iff_empty_state (now : string) (this : Dashboard) :
  (exportToCSV now this
   = JS.Throw (JS.TypeError "Cannot convert undefined or null to object")
   <-> emptyStateShown this = true)
  /\ ((exists d, exportToCSV now this = JS.Normal d)
      <-> emptyStateShown this = false).
Proof.
  unfold emptyStateShown.
  destruct (filteredInsights this) as [|i l] eqn:E.
  - rewrite (exportToCSV_empty now this E). simpl. split; split; try tauto.
    + intros [d H]. discriminate H.
    + discriminate.
  - assert (Hne : filteredInsights this <> []) by congruence.
    rewrite (exportToCSV_nonempty now this Hne). simpl. split; split;
      try discriminate; try tauto.
    intros _. eexists. reflexivity.
Qed.

(** X15: The name of the downloaded file is the part of the time stamp before
    its first T between [smart_facts_export_] and [.csv], and the whole
    time stamp when it has no T. *)
Theorem export_file_name (now : string) (this : Dashboard) (d : Download) :
  exportToCSV now this = JS.Normal d ->
  (forall date time,
     now = (date ++ "T" ++ time)%string -> ~ JS.occurs "T"%char date ->
     download d = ("smart_facts_export_" ++ date ++ ".csv")%string)
  /\ (~ JS.occurs "T"%char now ->
      download d = ("smart_facts_export_" ++ now ++ ".csv")%string).
Proof.
  intros H.
  assert (Hd : download d
               = ("smart_facts_export_" ++ JS.split_first "T"%char now ++ ".csv")%string).
  { unfold exportToCSV in H. destruct (map csvRow (filteredInsights this));
      [discriminate |]. injection H as <-. reflexivity. }
  split.
  - intros date time -> Hn. rewrite Hd. simpl (("T" ++ time)%string).
    now rewrite split_first_before.
  - intros Hn. rewrite Hd. now rewrite split_first_absent.
Qed.

(** X16: The export is a function of the filtered sequence: it is the export
    of a page loaded with the filtered sequence as its data. *)
Theorem export_of_filtered_only (now : string) (this : Dashboard) :
  exportToCSV now this
  = exportToCSV now (smartFactsDashboard (filteredInsights this)).
Proof. unfold exportToCSV. now rewrite filteredInsights_initial. Qed.

(* ===================================================================== *)
(** ** The page under sequences of events *)
(* ===================================================================== *)

Lemma dispatch_invariant (l : list Insight) (this : Dashboard) (e : Event) :
  page_invariant l this -> page_invariant l (dispatch this e).
Proof.
  unfold page_invariant, status_values, type_values.
  intros [H1 [H2 [H3 H4]]].
  destruct e as [value | o | o | | |]; simpl; repeat split; auto;
    destruct o; simpl; tauto.
Qed.

Lemma run_invariant (l : list Insight) (events : list Event) (this : Dashboard) :
  page_invariant l this -> page_invariant l (run this events).
Proof.
  unfold run. revert this. induction events as [|e events IH]; intros this H; simpl.
  - exact H.
  - apply IH. now apply dispatch_invariant.
Qed.

Lemma initial_invariant (l : list Insight) : page_invariant l (smartFactsDashboard l).
Proof. unfold page_invariant, status_values, type_values. simpl. tauto. Qed.

(** X17: After any sequence of events on a freshly loaded page, the base
    sequence and the statistics are those of the load, the two filters
    carry one of the values of their select, and exactly one of the grid
    and the list is shown. *)
Theorem page_after_events (l : list Insight) (events : list Event) :
  insights (run (smartFactsDashboard l) events) = l
  /\ stats (run (smartFactsDashboard l) events) = stats (smartFactsDashboard l)
  /\ In (statusFilter (run (smartFactsDashboard l) events)) status_values
  /\ In (typeFilter (run (smartFactsDashboard l) events)) type_values
  /\ xorb (gridShown (run (smartFactsDashboard l) events))
          (listShown (run (smartFactsDashboard l) events)) = true.
Proof.
  destruct (run_invariant l events _ (initial_invariant l)) as [H1 [H2 [H3 H4]]].
  split; [exact H1 |]. split; [unfold stats; now rewrite H1 |].
  split; [exact H2 |]. split; [exact H3 |].
  unfold gridShown, listShown. destruct H4 as [-> | ->]; reflexivity.
Qed.

(** X18: From any state the page can reach, emptying the search box and
    choosing the first option of both selects shows the whole base
    sequence again. *)
Theorem clearing_filters_shows_all (l : list Insight) (events : list Event) :
  filteredInsights
    (run (run (smartFactsDashboard l) events)
         [InputSearch ""; SelectStatus AllStatuses; SelectType AllTypes])
  = l.
Proof.
  destruct (run_invariant l events _ (initial_invariant l)) as [H1 _].
  unfold run at 1. simpl. unfold filteredInsights. simpl. rewrite H1.
  apply filter_all. reflexivity.
Qed.

(* ===================================================================== *)
(** ** str.format, generate_dashboard_html and main *)
(* ===================================================================== *)

Section FormatFacts.

Local Open Scope string_scope.

Variable kwargs : list (string * string).

Lemma snoc_app (out : string) (c : ascii) (s : string) :
  snoc out c ++ s = out ++ String c s.
Proof. unfold snoc. now rewrite append_assoc. Qed.

(** Text without braces is copied. *)
Lemma format_from_literal (s t out : string) :
  brace_free s ->
  format_from kwargs InLiteral out (s ++ t)
  = format_from kwargs InLiteral (out ++ s) t.
Proof.
  revert out. induction s as [|c s IH]; intros out [Ho Hc]; simpl.
  - now rewrite append_empty_r.
  - simpl in Ho, Hc.
    destruct (Ascii.eqb c OPEN) eqn:E1; [apply Ascii.eqb_eq in E1; tauto |].
    destruct (Ascii.eqb c CLOSE) eqn:E2; [apply Ascii.eqb_eq in E2; tauto |].
    rewrite IH by (split; tauto). now rewrite snoc_app.
Qed.

Lemma format_from_escaped (s out : string) :
  format_from kwargs InLiteral out (escape_braces s) = Rendered (out ++ s).
Proof.
  revert out. induction s as [|c s IH]; intros out; simpl.
  - now rewrite append_empty_r.
  - destruct (Ascii.eqb c OPEN) eqn:E1.
    + apply Ascii.eqb_eq in E1. subst c. simpl. rewrite IH. now rewrite snoc_app.
    + destruct (Ascii.eqb c CLOSE) eqn:E2; simpl; rewrite E1, E2.
      * apply Ascii.eqb_eq in E2. subst c. simpl. rewrite IH. now rewrite snoc_app.
      * rewrite IH. now rewrite snoc_app.
Qed.

Lemma first_part_plain (k : string) : plain_units k = true -> first_part k = k.
Proof.
  induction k as [|c k IH]; simpl; [reflexivity |].
  rewrite andb_true_iff, negb_true_iff, !orb_false_iff.
  intros [[[[[[_ _] Hb] Hd] _] _] Hk].
  rewrite Hd, Hb. simpl. now rewrite IH.
Qed.

(** The units of a plain name are gathered up to the closing brace. *)
Lemma format_from_name (k n out b : string) :
  plain_units k = true ->
  format_from kwargs (InName n) out (k ++ String CLOSE b)
  = match close_field kwargs out (n ++ k) None EmptyString with
    | Go mode' out' => format_from kwargs mode' out' b
    | Stop r => r
    end.
Proof.
  revert n. induction k as [|c k IH]; intros n; simpl.
  - intros _. unfold name_step. simpl. now rewrite append_empty_r.
  - rewrite andb_true_iff, negb_true_iff, !orb_false_iff.
    intros [[[[[[Ho Hc] Hb] Hd] Hcol] Hbang] Hk].
    unfold name_step. rewrite Ho, Hb, Hc, Hcol, Hbang.
    rewrite (IH _ Hk). now rewrite snoc_app.
Qed.

Lemma format_from_field (k out b : string) :
  plain_name k = true ->
  format_from kwargs InLiteral out (String OPEN (k ++ String CLOSE b))
  = match kwargs_get kwargs k with
    | Some value => format_from kwargs InLiteral (out ++ value) b
    | None => Raises (KeyError k)
    end.
Proof.
  unfold plain_name. rewrite !andb_true_iff, negb_true_iff.
  intros [[Ht Hd] Hp].
  assert (E : format_from kwargs InLiteral out (String OPEN (k ++ String CLOSE b))
              = format_from kwargs (InName "") out (k ++ String CLOSE b)).
  { destruct k as [|c k]; [discriminate Ht |].
    simpl in Hp. rewrite andb_true_iff, negb_true_iff, !orb_false_iff in Hp.
    destruct Hp as [[[[[[Ho _] _] _] _] _] _].
    simpl. now rewrite Ho. }
  rewrite E, (format_from_name k "" out b Hp). simpl.
  unfold close_field. rewrite (first_part_plain k Hp), Ht, Hd. simpl.
  destruct (kwargs_get kwargs k); [| reflexivity].
  now rewrite String.eqb_refl.
Qed.

End FormatFacts.

(** X19: A text whose braces are all written twice is rendered as the text
    with single braces, and a text without braces as itself, whatever the
    keyword arguments. *)
Theorem str_format_escaped (kwargs : list (string * string)) (s : string) :
  str_format (escape_braces s) kwargs = Rendered s
  /\ (brace_free s -> str_format s kwargs = Rendered s).
Proof.
  split.
  - unfold str_format. now rewrite format_from_escaped.
  - intros H. unfold str_format.
    rewrite <- (append_empty_r s) at 1.
    rewrite (format_from_literal kwargs s "" "" H). reflexivity.
Qed.

(** X20: A placeholder with a plain name between two texts without braces is
    replaced by the argument of that name; when no argument has that name
    the call raises KeyError with the name. *)
Theorem str_format_placeholder
  (kwargs : list (string * string)) (a k b : string) :
  brace_free a -> plain_name k = true -> brace_free b ->
  (forall value,
     kwargs_get kwargs k = Some value ->
     str_format (a ++ "{" ++ k ++ "}" ++ b)%string kwargs
     = Rendered (a ++ value ++ b)%string)
  /\ (kwargs_get kwargs k = None ->
      str_format (a ++ "{" ++ k ++ "}" ++ b)%string kwargs = Raises (KeyError k)).
Proof.
  intros Ha Hk Hb. unfold str_format.
  assert (E : format_from kwargs InLiteral "" (a ++ "{" ++ k ++ "}" ++ b)%string
              = match kwargs_get kwargs k with
                | Some value => format_from kwargs InLiteral (a ++ value)%string b
                | None => Raises (KeyError k)
                end).
  { rewrite (format_from_literal kwargs a _ "" Ha). simpl (("" ++ a)%string).
    exact (format_from_field kwargs k a b Hk). }
  split.
  - intros value Hv. rewrite E, Hv.
    rewrite <- (append_empty_r b) at 1.
    rewrite (format_from_literal kwargs b "" _ Hb). simpl.
    now rewrite append_assoc.
  - intros Hn. now rewrite E, Hn.
Qed.

Lemma generate_dashboard_html_stops
  (json_dumps : list Insight -> string) (last_updated rest : string)
  (insights : list Insight) :
  generate_dashboard_html json_dumps last_updated rest insights
  = Raises (KeyError first_rule_name).
Proof. reflexivity. Qed.

(** X21: [generate_dashboard_html] raises KeyError on every list of insights:
    the first rule of the style sheet, written with single braces, is read
    as a replacement field whose name is no keyword argument. *)
Theorem generate_dashboard_html_raises
  (json_dumps : list Insight -> string) (last_updated rest : string)
  (insights : list Insight) :
  generate_dashboard_html json_dumps last_updated rest insights
  = Raises (KeyError first_rule_name).
Proof. apply generate_dashboard_html_stops. Qed.

(** X22: On every environment [main] opens no file for writing and does not
    return: it ends with the exception of a print that raised, or with the
    KeyError of [generate_dashboard_html]; with prints that do not raise
    it ends with that KeyError. *)
Theorem main_writes_nothing
  (json_dumps : list Insight -> string) (last_updated rest : string) (env : Env) :
  written (main json_dumps last_updated rest env) = []
  /\ ((exists e, outcome (main json_dumps last_updated rest env) = Raised e)
      \/ outcome (main json_dumps last_updated rest env)
         = FormatRaised (KeyError first_rule_name))
  /\ ((forall line, print env line = Ok tt) ->
      outcome (main json_dumps last_updated rest env)
      = FormatRaised (KeyError first_rule_name)).
Proof.
  unfold main.
  destruct (print env "Building Smart Facts Dashboard...") as [u | e] eqn:P1.
  - destruct (extract_smart_facts_from_codebase env) as [insights | e] eqn:R.
    + destruct (print env ("Extracted " ++ str_nat (length insights)
                             ++ " insights")%string) as [u' | e] eqn:P2.
      * rewrite generate_dashboard_html_stops. simpl.
        split; [reflexivity |]. split; [now right | reflexivity].
      * simpl. split; [reflexivity |]. split; [left; now exists e |].
        intros H. rewrite H in P2. discriminate.
    + simpl. split; [reflexivity |]. split; [left; now exists e |].
      intros H. rewrite resolver_resolved in R by (intros e0; apply H). discriminate.
  - simpl. split; [reflexivity |]. split; [left; now exists e |].
    intros H. rewrite H in P1. discriminate.
Qed.

(* ===================================================================== *)
(** ** Further theorems at sample inputs *)
(* ===================================================================== *)

(** The override is missing and [../hometap] too; [../../hometap] is
    used. *)
Lemma resolver_location_witness :
  "../../hometap" <> ""
  /\ os_path_exists env_second_fallback "../../hometap" = true
  /\ (environ_get env_second_fallback "CODEBASE_PATH" = Some "../../hometap"
      \/ In "../../hometap" fixed_paths).
Proof.
  destruct (resolver_location env_second_fallback) as [H _].
  apply (H "../../hometap"). reflexivity.
Defined.

(** The type filter [both] and the status filter [archived] on the two
    sample insights. *)
Lemma unmatched_filter_shows_nothing_witness :
  filteredInsights (with_typeFilter "both" (smartFactsDashboard [insight_A; insight_B])) = []
  /\ filteredInsights
       (with_statusFilter "archived" (smartFactsDashboard [insight_A; insight_B])) = [].
Proof.
  split.
  - destruct (unmatched_filter_shows_nothing
                (with_typeFilter "both" (smartFactsDashboard [insight_A; insight_B])))
      as [H _].
    apply H; simpl; discriminate.
  - destruct (unmatched_filter_shows_nothing
                (with_statusFilter "archived" (smartFactsDashboard [insight_A; insight_B])))
      as [_ H].
    apply H; simpl; [discriminate |].
    intros insight [<- | [<- | []]]; simpl; discriminate.
Defined.

(** GAMMA and gamma show the same insights. *)
Lemma search_ignores_query_case_witness :
  filteredInsights (with_searchQuery "GAMMA" (smartFactsDashboard [insight_A; insight_C]))
  = filteredInsights (with_searchQuery "gamma" (smartFactsDashboard [insight_A; insight_C])).
Proof.
  apply (search_ignores_query_case
           (smartFactsDashboard [insight_A; insight_C]) "GAMMA" "gamma").
  reflexivity.
Defined.

(** The query [Gam] shows a subsequence of what [a] shows. *)
Lemma search_narrowing_witness :
  sublist
    (filteredInsights (with_searchQuery "Gam" (smartFactsDashboard [insight_A; insight_C])))
    (filteredInsights (with_searchQuery "a" (smartFactsDashboard [insight_A; insight_C]))).
Proof.
  apply (search_narrowing (smartFactsDashboard [insight_A; insight_C]) "a" "Gam").
  exists "g", "m". vm_compute. reflexivity.
Defined.

(** The first read raises and its line is printed: the built-in
    sequence. *)
Lemma resolver_outcome_witness :
  extract_smart_facts_from_codebase env_unreadable = Ok get_hardcoded_insights.
Proof.
  apply (proj1 (resolver_outcome env_unreadable)). intros e. reflexivity.
Defined.

(** Two environments whose files hold different text. *)
Lemma resolver_ignores_file_text_witness :
  extract_smart_facts_from_codebase env_second_fallback
  = extract_smart_facts_from_codebase env_other_text.
Proof.
  apply (resolver_ignores_file_text
           (fun k => if String.eqb k "CODEBASE_PATH" then Some "/nowhere" else None)
           (fun p => JS.startsWith p "../../hometap")
           (fun _ => Ok "x = 1") (fun _ => Ok "y = 2")
           (fun _ => Ok tt) (fun _ => "") (fun _ _ => Ok tt)).
  intros p. exact I.
Defined.

(** Nothing exists and every print succeeds: [main] ends with the
    KeyError. *)
Lemma main_writes_nothing_witness :
  outcome (main (fun _ => "[]") "May 06, 2024 at 07:08 AM" "" env_nothing)
  = FormatRaised (KeyError first_rule_name).
Proof.
  apply (proj2 (proj2 (main_writes_nothing
                         (fun _ => "[]") "May 06, 2024 at 07:08 AM" "" env_nothing))).
  intros line. reflexivity.
Defined.

(** The field of [a,b] is the field of [a,b] alone. *)
Lemma emitted_injective_witness : "a,b" = "a,b".
Proof. apply (emitted_injective "a,b" "a,b"). reflexivity. Defined.

(** The export of 6 May 2024 is named after that date. *)
Lemma export_file_name_witness :
  download
    {| download := "smart_facts_export_2024-05-06.csv";
       type := "text/csv;charset=utf-8;";
       body := JS.join newline (csv_lines [insight_A]) |}
  = "smart_facts_export_2024-05-06.csv".
Proof.
  destruct (export_file_name "2024-05-06T07:08:09.000Z"
              (smartFactsDashboard [insight_A])
              {| download := "smart_facts_export_2024-05-06.csv";
                 type := "text/csv;charset=utf-8;";
                 body := JS.join newline (csv_lines [insight_A]) |})
    as [H _]; [reflexivity |].
  apply (H "2024-05-06" "07:08:09.000Z"); [reflexivity |].
  simpl. intros H'. repeat (destruct H' as [H' | H']; [discriminate H' |]). exact H'.
Defined.

(** A script line with doubled braces, and a line of markup. *)
Lemma str_format_escaped_witness :
  str_format "function f() {{ return {{}}; }}" [ ("last_updated", "now") ]
  = Rendered "function f() { return {}; }"
  /\ str_format "<body>" [ ("last_updated", "now") ] = Rendered "<body>".
Proof.
  split.
  - apply (proj1 (str_format_escaped [ ("last_updated", "now") ]
                    "function f() { return {}; }")).
  - apply (proj2 (str_format_escaped [ ("last_updated", "now") ] "<body>")).
    split; simpl; intros H; repeat (destruct H as [H | H]; [discriminate H |]); exact H.
Defined.

(** The placeholder of the header line, and a placeholder that is no
    keyword argument. *)
Lemma str_format_placeholder_witness :
  str_format "Last updated: {last_updated}</p>"
    [ ("insights_json", "[]"); ("last_updated", "May 06, 2024 at 07:08 AM") ]
  = Rendered "Last updated: May 06, 2024 at 07:08 AM</p>"
  /\ str_format "Last updated: {updated}</p>"
       [ ("insights_json", "[]"); ("last_updated", "May 06, 2024 at 07:08 AM") ]
     = Raises (KeyError "updated").
Proof.
  assert (Ha : brace_free "Last updated: ").
  { split; simpl; intros H; repeat (destruct H as [H | H]; [discriminate H |]); exact H. }
  assert (Hb : brace_free "</p>").
  { split; simpl; intros H; repeat (destruct H as [H | H]; [discriminate H |]); exact H. }
  split.
  - exact (proj1 (str_format_placeholder
                    [ ("insights_json", "[]"); ("last_updated", "May 06, 2024 at 07:08 AM") ]
                    "Last updated: " "last_updated" "</p>" Ha eq_refl Hb)
                 "May 06, 2024 at 07:08 AM" eq_refl).
  - exact (proj2 (str_format_placeholder
                    [ ("insights_json", "[]"); ("last_updated", "May 06, 2024 at 07:08 AM") ]
                    "Last updated: " "updated" "</p>" Ha eq_refl Hb)
                 eq_refl).
Defined.
